(** * Student performance analyzer

    A shallow embedding of [src/analyzer.py]: the score parser
    ([calculate_average_score]), the trend classifier ([calculate_trend]),
    the risk scorer ([determine_risk_level]) and the aggregator
    ([analyze_student], [analyze_all_students], [get_at_risk_students],
    [get_statistics], [generate_recommendations]).

    Python floats are IEEE 754 binary64 numbers, as are Rocq's primitive
    floats, so the arithmetic and the comparisons of the source are kept as
    they are written.  Exceptions are values of an error monad; the analyzer
    object is passed explicitly. *)

From Stdlib Require Import Floats ZArith Lia List String Ascii Bool.
From Stdlib Require Import DecimalString.
Import ListNotations.

(** A decimal literal such as [0.4] denotes the nearest binary64 number, in
    Python and here alike. *)
#[local] Set Warnings "-inexact-float".

(** ** Exceptions *)

Inductive exception : Type :=
| ValueError (msg : string)
| AttributeError
| ZeroDivisionError.

Inductive result (A : Type) : Type :=
| Ok (a : A)
| Raise (e : exception).

Arguments Ok {A} a.
Arguments Raise {A} e.

Definition bind {A B : Type} (c : result A) (k : A -> result B) : result B :=
  match c with
  | Ok a => k a
  | Raise e => Raise e
  end.

Notation "x <- c ;; k" := (bind c (fun x => k))
  (at level 61, c at next level, right associativity).

(** [try: body except (ValueError, AttributeError): handler]; any other
    exception goes on to the caller. *)
Definition try_except_ValueError_AttributeError {A : Type}
    (body handler : result A) : result A :=
  match body with
  | Ok a => Ok a
  | Raise (ValueError _) => handler
  | Raise AttributeError => handler
  | Raise e => Raise e
  end.

(** A list comprehension [[f(x) for x in l]]: elements are evaluated from left
    to right and the first exception ends the evaluation. *)
Fixpoint list_comprehension {A B : Type} (f : A -> result B) (l : list A)
    : result (list B) :=
  match l with
  | [] => Ok []
  | x :: l' => y <- f x ;; ys <- list_comprehension f l' ;; Ok (y :: ys)
  end.

(** ** Numbers *)

(** [float(n)] for an integer [n], and the conversion of an integer operand
    of a float operation: the nearest binary64 number. *)
Definition float_of_Z (z : Z) : float :=
  SF2Prim (binary_normalize prec emax z 0 false).

Definition float_of_nat (n : nat) : float := float_of_Z (Z.of_nat n).

(** [a / b] on Python integers.  For operands below 2^53, as the counts of
    students are, the quotient of the converted operands is the correctly
    rounded quotient that Python returns. *)
Definition int_truediv (a b : nat) : result float :=
  if Nat.eqb b 0 then Raise ZeroDivisionError
  else Ok (float_of_nat a / float_of_nat b)%float.

(** ** Strings *)

(** [str.isspace] on the code points below 256. *)
Definition is_space (c : ascii) : bool :=
  let n := N_of_ascii c in
  ((9 <=? n) && (n <=? 13) || (28 <=? n) && (n <=? 32)
   || (n =? 133) || (n =? 160))%N.

Fixpoint lstrip (s : string) : string :=
  match s with
  | String c s' => if is_space c then lstrip s' else s
  | EmptyString => EmptyString
  end.

Fixpoint rstrip (s : string) : string :=
  match s with
  | String c s' =>
      match rstrip s' with
      | EmptyString => if is_space c then EmptyString else String c EmptyString
      | r => String c r
      end
  | EmptyString => EmptyString
  end.

(** [s.strip()] *)
Definition strip (s : string) : string := rstrip (lstrip s).

(** [s.split(sep)] for a one-character separator: the result is never empty,
    and the empty string splits into one empty token. *)
Fixpoint split (sep : ascii) (s : string) : list string :=
  match s with
  | EmptyString => [EmptyString]
  | String c s' =>
      if Ascii.eqb c sep then EmptyString :: split sep s'
      else match split sep s' with
           | tok :: toks => String c tok :: toks
           | [] => [String c EmptyString]
           end
  end.

(** ** Labels *)

Inductive TrendLabel : Type := improving | declining | stable.

Inductive RiskLevel : Type := low | medium | high.

Definition RiskLevel_eqb (a b : RiskLevel) : bool :=
  match a, b with
  | low, low | medium, medium | high, high => true
  | _, _ => false
  end.

(** ** The numeric library

    The analyzer calls three functions that are not code of the repository:
    the builtin [float] on a string, numpy's summation of a float64 array
    (under [np.mean] and [np.std]) and [round(x, 2)], which Python takes
    from the type of [x]: numpy's rounding for a [numpy.float64], the
    builtin one for a Python float.  The model takes them as an interface;
    [reference_lib] below implements it. *)
Class NumericLib : Type := {
  (** [float(s)]; [None] when Python raises [ValueError] *)
  py_float : string -> option float;
  (** [np.add.reduce] over a one-dimensional float64 array *)
  np_sum : list float -> float;
  (** [round(x, 2)] on a [numpy.float64], numpy's rounding: the parsed
      averages and the means of [np.mean] and [np.std] are of this type, and
      so is the mean of two averages in [analyze_student] unless both are
      the 0.0 of a series that could not be read *)
  round2 : float -> float;
  (** [round(x, 2)] on a Python float, the builtin rounding: the at-risk
      percentage of [get_statistics], a quotient of Python integers *)
  builtin_round2 : float -> float
}.

Section Analyzer.

Context {L : NumericLib}.

Local Open Scope string_scope.
Local Open Scope list_scope.
Local Open Scope float_scope.

Definition float_of_string (s : string) : result float :=
  match py_float s with
  | Some v => Ok v
  | None => Raise (ValueError "could not convert string to float")
  end.

(** [np.mean(a)]: the sum of the array over the number of its items. *)
Definition np_mean (a : list float) : float :=
  np_sum a / float_of_nat (List.length a).

(** [np.var(a, ddof)]: the sum of the squared deviations from the mean over
    [max(len(a) - ddof, 0)]. *)
Definition np_var (ddof : nat) (a : list float) : float :=
  let arrmean := np_sum a / float_of_nat (List.length a) in
  let x := map (fun v => v - arrmean) a in
  let x := map (fun d => d * d) x in
  np_sum x / float_of_nat (List.length a - ddof).

(** [np.std(a)]: [ddof] is 0 when it is not given. *)
Definition np_std (a : list float) : float := sqrt (np_var 0 a).

(** ** Score parser and trend classifier *)

(** A score series as the analyzer receives it: a string, or pandas' marker
    of a missing value ([None]), for which [pd.isna] holds. *)
Definition series : Type := option string.

Definition isna (scores_str : series) : bool :=
  match scores_str with
  | None => true
  | Some _ => false
  end.

(** [scores_str == ''] *)
Definition is_empty_string (scores_str : series) : bool :=
  match scores_str with
  | Some s => String.eqb s ""
  | None => false
  end.

(** [str(scores_str)] *)
Definition str (scores_str : series) : string :=
  match scores_str with
  | Some s => s
  | None => "nan"
  end.

(** [[float(s.strip()) for s in str(scores_str).split(',')]] *)
Definition parse_scores (scores_str : series) : result (list float) :=
  list_comprehension (fun s => float_of_string (strip s))
                     (split "," (str scores_str)).

Definition calculate_average_score (scores_str : series) : result float :=
  if isna scores_str || is_empty_string scores_str then Ok 0
  else
    try_except_ValueError_AttributeError
      (scores <- parse_scores scores_str ;;
       Ok (round2 (np_mean scores)))
      (Ok 0).

Definition calculate_trend (scores_str : series) : result TrendLabel :=
  if isna scores_str || is_empty_string scores_str then Ok stable
  else
    try_except_ValueError_AttributeError
      (scores <- parse_scores scores_str ;;
       if (List.length scores <? 2)%nat then Ok stable
       else
         let mid := (List.length scores / 2)%nat in
         let first_half := np_mean (firstn mid scores) in
         let second_half := np_mean (skipn mid scores) in
         let diff := second_half - first_half in
         if 5 <? diff then Ok improving
         else if diff <? -5 then Ok declining
         else Ok stable)
      (Ok stable).

(** ** Risk scorer *)

Definition determine_risk_level (avg_score attendance completion : float)
    : RiskLevel :=
  let risk_score :=
    (100 - avg_score) * 0.4 +
    (100 - attendance) * 0.3 +
    (100 - completion) * 0.3 in
  if 40 <=? risk_score then high
  else if 20 <=? risk_score then medium
  else low.

(** ** Records and metrics *)

(** A row of the loaded table ([pd.Series]).  The identifier column is
    always there ([row['student_id']], a string); [row.get(column, default)]
    gives the default when the column is absent, so each of the other
    columns is an [option]; a cell of a score column is a [series], a cell
    of a numeric column a float (NaN when the cell is empty), on which
    [float(x)] is the identity. *)
Record Row : Type := {
  col_student_id : string;
  col_assignment_scores : option series;
  col_quiz_scores : option series;
  col_attendance : option float;
  col_completion_rate : option float
}.

(** [row.get(column, default)] *)
Definition get {A : Type} (cell : option A) (default : A) : A :=
  match cell with
  | Some v => v
  | None => default
  end.

Record StudentMetrics : Type := {
  student_id : string;
  average_score : float;
  attendance_rate : float;
  assignment_completion : float;
  trend : TrendLabel;
  risk_level : RiskLevel
}.

(** The mean of the two averages is rounded as a [numpy.float64]; it is a
    Python float only when both averages are the 0.0 of a series that could
    not be read, and the builtin rounding of 0.0 is 0.0 as numpy's is. *)
Definition analyze_student (row : Row) : result StudentMetrics :=
  avg_assignment <-
    calculate_average_score (get (col_assignment_scores row) (Some "")) ;;
  avg_quiz <- calculate_average_score (get (col_quiz_scores row) (Some "")) ;;
  let average_score := round2 ((avg_assignment + avg_quiz) / 2) in
  let attendance := get (col_attendance row) 0 in
  let completion := get (col_completion_rate row) 100 in
  trend <- calculate_trend (get (col_assignment_scores row) (Some "")) ;;
  let risk_level := determine_risk_level average_score attendance completion in
  Ok {| student_id := col_student_id row;
        average_score := average_score;
        attendance_rate := attendance;
        assignment_completion := completion;
        trend := trend;
        risk_level := risk_level |}.

(** ** The metrics mapping

    A Python [dict] keeps its keys in insertion order, and assigning to a key
    that is present replaces the value where the key stands. *)
Definition dict : Type := list (string * StudentMetrics).

(** [d[key] = value] *)
Fixpoint dict_set (d : dict) (key : string) (value : StudentMetrics) : dict :=
  match d with
  | [] => [(key, value)]
  | (k, v) :: d' =>
      if String.eqb k key then (k, value) :: d'
      else (k, v) :: dict_set d' key value
  end.

(** [d.get(key)] *)
Fixpoint dict_get (d : dict) (key : string) : option StudentMetrics :=
  match d with
  | [] => None
  | (k, v) :: d' => if String.eqb k key then Some v else dict_get d' key
  end.

(** [list(d)] and [d.values()] *)
Definition keys (d : dict) : list string := map fst d.
Definition values (d : dict) : list StudentMetrics := map snd d.

(** [not d] *)
Definition dict_is_empty (d : dict) : bool :=
  match d with
  | [] => true
  | _ :: _ => false
  end.

(** ** The analyzer *)

Record StudentPerformanceAnalyzer : Type := {
  data : option (list Row);
  metrics : dict
}.

(** [StudentPerformanceAnalyzer()] *)
Definition init : StudentPerformanceAnalyzer :=
  {| data := None; metrics := [] |}.

Definition load_data_from_dataframe (self : StudentPerformanceAnalyzer)
    (df : list Row) : list Row * StudentPerformanceAnalyzer :=
  (df, {| data := Some df; metrics := metrics self |}).

(** The loop of [analyze_all_students] over [self.data.iterrows()]. *)
Fixpoint analyze_rows (rows : list Row) (acc : dict) : result dict :=
  match rows with
  | [] => Ok acc
  | row :: rows' =>
      m <- analyze_student row ;;
      analyze_rows rows' (dict_set acc (student_id m) m)
  end.

Definition analyze_all_students (self : StudentPerformanceAnalyzer)
    : result (dict * StudentPerformanceAnalyzer) :=
  match data self with
  | None => Raise (ValueError "No data loaded. Call load_data() first.")
  | Some rows =>
      d <- analyze_rows rows [] ;;
      Ok (d, {| data := data self; metrics := d |})
  end.

(** [if not self.metrics: self.analyze_all_students()] *)
Definition ensure_analyzed (self : StudentPerformanceAnalyzer)
    : result StudentPerformanceAnalyzer :=
  if dict_is_empty (metrics self) then
    r <- analyze_all_students self ;; Ok (snd r)
  else Ok self.

Definition get_at_risk_students (self : StudentPerformanceAnalyzer)
    (level : RiskLevel)
    : result (list StudentMetrics * StudentPerformanceAnalyzer) :=
  self <- ensure_analyzed self ;;
  Ok (filter (fun m => RiskLevel_eqb (risk_level m) level)
             (values (metrics self)),
      self).

(** ** Cohort statistics *)

Record RiskCounts : Type := {
  count_low : nat;
  count_medium : nat;
  count_high : nat
}.

Record TrendCounts : Type := {
  count_improving : nat;
  count_stable : nat;
  count_declining : nat
}.

(** [risk_counts[level] += 1] *)
Definition incr_risk (c : RiskCounts) (level : RiskLevel) : RiskCounts :=
  match level with
  | low => {| count_low := S (count_low c); count_medium := count_medium c;
              count_high := count_high c |}
  | medium => {| count_low := count_low c; count_medium := S (count_medium c);
                 count_high := count_high c |}
  | high => {| count_low := count_low c; count_medium := count_medium c;
               count_high := S (count_high c) |}
  end.

(** [trend_counts[label] += 1] *)
Definition incr_trend (c : TrendCounts) (label : TrendLabel) : TrendCounts :=
  match label with
  | improving => {| count_improving := S (count_improving c);
                    count_stable := count_stable c;
                    count_declining := count_declining c |}
  | stable => {| count_improving := count_improving c;
                 count_stable := S (count_stable c);
                 count_declining := count_declining c |}
  | declining => {| count_improving := count_improving c;
                    count_stable := count_stable c;
                    count_declining := S (count_declining c) |}
  end.

(** The counting loop of [get_statistics]. *)
Definition count_buckets (ms : list StudentMetrics) : RiskCounts * TrendCounts :=
  fold_left
    (fun counts m =>
       (incr_risk (fst counts) (risk_level m),
        incr_trend (snd counts) (trend m)))
    ms
    ({| count_low := 0; count_medium := 0; count_high := 0 |},
     {| count_improving := 0; count_stable := 0; count_declining := 0 |}).

Record CohortStatistics : Type := {
  total_students : nat;
  average_score_mean : float;
  average_score_std : float;
  average_attendance : float;
  risk_distribution : RiskCounts;
  trend_distribution : TrendCounts;
  at_risk_percentage : float
}.

(** [bool(l)] of a list *)
Definition nonempty {A : Type} (l : list A) : bool :=
  match l with
  | [] => false
  | _ :: _ => true
  end.

Definition get_statistics (self : StudentPerformanceAnalyzer)
    : result (CohortStatistics * StudentPerformanceAnalyzer) :=
  self <- ensure_analyzed self ;;
  let scores := map average_score (values (metrics self)) in
  let attendance := map attendance_rate (values (metrics self)) in
  let counts := count_buckets (values (metrics self)) in
  let risk_counts := fst counts in
  let trend_counts := snd counts in
  at_risk <-
    (if negb (dict_is_empty (metrics self)) then
       q <- int_truediv (count_high risk_counts + count_medium risk_counts)
                        (List.length (metrics self)) ;;
       Ok (builtin_round2 (q * 100))
     else Ok 0) ;;
  Ok ({| total_students := List.length (metrics self);
         average_score_mean :=
           if nonempty scores then round2 (np_mean scores) else 0;
         average_score_std :=
           if nonempty scores then round2 (np_std scores) else 0;
         average_attendance :=
           if nonempty attendance then round2 (np_mean attendance) else 0;
         risk_distribution := risk_counts;
         trend_distribution := trend_counts;
         at_risk_percentage := at_risk |},
      self).

(** ** Recommendations *)

Definition msg_not_found : string := "Student not found in analyzed data.".
Definition msg_tutoring : string :=
  "Consider additional tutoring sessions to improve understanding.".
Definition msg_attendance : string :=
  "Attendance is below optimal. Regular attendance strongly correlates with better performance.".
Definition msg_completion : string :=
  "Focus on completing all assignments. Missing assignments significantly impact final grades.".
Definition msg_declining : string :=
  "Performance trend is declining. Schedule a meeting to discuss challenges.".
Definition msg_high_priority : string :=
  "HIGH PRIORITY: This student needs immediate intervention.".
Definition msg_performing_well : string :=
  "Student is performing well. Continue current study habits.".

(** [recommendations.append(msg)] under [if cond] *)
Definition append_if (cond : bool) (recommendations : list string)
    (msg : string) : list string :=
  if cond then recommendations ++ [msg] else recommendations.

Definition TrendLabel_eqb (a b : TrendLabel) : bool :=
  match a, b with
  | improving, improving | declining, declining | stable, stable => true
  | _, _ => false
  end.

Definition generate_recommendations (self : StudentPerformanceAnalyzer)
    (id : string) : list string :=
  match dict_get (metrics self) id with
  | None => [msg_not_found]
  | Some m =>
      let recommendations := [] in
      let recommendations :=
        append_if (average_score m <? 60) recommendations msg_tutoring in
      let recommendations :=
        append_if (attendance_rate m <? 80) recommendations msg_attendance in
      let recommendations :=
        append_if (assignment_completion m <? 90) recommendations
                  msg_completion in
      let recommendations :=
        append_if (TrendLabel_eqb (trend m) declining) recommendations
                  msg_declining in
      let recommendations :=
        append_if (RiskLevel_eqb (risk_level m) high) recommendations
                  msg_high_priority in
      let recommendations :=
        append_if (negb (nonempty recommendations)) recommendations
                  msg_performing_well in
      recommendations
  end.

End Analyzer.

(** ** A reference implementation of the numeric library

    Used to run the analyzer on concrete records. *)
Module Reference.

Local Open Scope float_scope.

(** Summation from left to right, as numpy does for arrays of fewer than
    eight items. *)
Definition sum (a : list float) : float := fold_left PrimFloat.add a 0.

Definition two52 : float := 4503599627370496.

(** [np.rint]: the nearest integer, ties to even.  Below 2^52 adding and
    subtracting 2^52 rounds to an integer; from 2^52 on every binary64
    number is an integer. *)
Definition rint (x : float) : float :=
  if x =? 0 then x
  else if x <? 0 then
    (if - x <? two52 then - ((- x + two52) - two52) else x)
  else
    (if x <? two52 then (x + two52) - two52 else x).

(** numpy's rounding to two decimals: [rint(x * 100) / 100]. *)
Definition round_2 (x : float) : float := rint (x * 100) / 100.

(** The quotient [n / d] of two positive integers rounded to the nearest
    integer, ties to even. *)
Definition div_nearest_even (n d : Z) : Z :=
  let q := (n / d)%Z in
  let r := (n mod d)%Z in
  match (2 * r ?= d)%Z with
  | Lt => q
  | Gt => (q + 1)%Z
  | Eq => if Z.even q then q else (q + 1)%Z
  end.

(** The builtin rounding to two decimals.  Python rounds the exact value of
    the float to the nearest multiple of 1/100, ties to even, and returns
    the float nearest to that decimal: with [m * 2^e] the value of [x],
    the hundredths are [100 * m * 2^e] rounded to an integer, and the
    result is their correctly rounded quotient by 100.  A float with
    [e >= 0] is an integer and is returned as it is. *)
Definition builtin_round_2 (x : float) : float :=
  match Prim2SF x with
  | S754_finite s m e =>
      if (0 <=? e)%Z then x
      else
        let hundredths := div_nearest_even (100 * Z.pos m) (2 ^ (- e)) in
        match hundredths with
        | Z.pos n =>
            SF2Prim (SFdiv prec emax (S754_finite s n 0)
                           (S754_finite false 100 0))
        | _ => if s then (- 0) else 0
        end
  | _ => x
  end.

Definition digit_of (c : ascii) : option Z :=
  let n := N_of_ascii c in
  if ((48 <=? n) && (n <=? 57))%N then Some (Z.of_N (n - 48)) else None.

(** Reads a run of decimal digits: the number read so far, how many digits
    were read, and the rest of the string. *)
Fixpoint read_digits (s : string) (acc : Z) (count : nat)
    : Z * nat * string :=
  match s with
  | String c s' =>
      match digit_of c with
      | Some d => read_digits s' (10 * acc + d) (S count)
      | None => (acc, count, s)
      end
  | EmptyString => (acc, count, s)
  end.

(** [digits / 10^scale], exact operands and one correctly rounded division:
    the binary64 number nearest to the decimal, for up to 15 digits. *)
Definition decimal (digits : Z) (n_digits scale : nat) : option float :=
  if ((1 <=? n_digits) && (n_digits <=? 15))%nat then
    Some (float_of_Z digits / float_of_Z (10 ^ Z.of_nat scale))
  else None.

Definition parse_unsigned (s : string) : option float :=
  let '(int_part, n_int, rest) := read_digits s 0 0 in
  match rest with
  | EmptyString => decimal int_part n_int 0
  | String c rest' =>
      if Ascii.eqb c "." then
        let '(all_digits, n_frac, rest'') := read_digits rest' int_part 0 in
        match rest'' with
        | EmptyString => decimal all_digits (n_int + n_frac) n_frac
        | String _ _ => None
        end
      else None
  end.

(** [float(s)] on plain decimal literals: an optional sign, digits, an
    optional fraction.  Any other string is rejected. *)
Definition parse_float (s : string) : option float :=
  match s with
  | String c s' =>
      if Ascii.eqb c "-" then option_map PrimFloat.opp (parse_unsigned s')
      else if Ascii.eqb c "+" then parse_unsigned s'
      else parse_unsigned s
  | EmptyString => None
  end.

End Reference.

Definition reference_lib : NumericLib :=
  {| py_float := Reference.parse_float;
     np_sum := Reference.sum;
     round2 := Reference.round_2;
     builtin_round2 := Reference.builtin_round_2 |}.

(** ** Sample records

    The tables of the test suite, and two more: one with a repeated
    identifier and one without the optional columns. *)
Module Sample.

Local Open Scope string_scope.
Local Open Scope float_scope.

Definition row (id assignments quizzes : string) (attendance completion : float)
    : Row :=
  {| col_student_id := id;
     col_assignment_scores := Some (Some assignments);
     col_quiz_scores := Some (Some quizzes);
     col_attendance := Some attendance;
     col_completion_rate := Some completion |}.

Definition alice : Row := row "S001" "90,92,94" "88,90,92" 95 100.
Definition bob : Row := row "S002" "50,48,45" "52,50,48" 55 60.
Definition carol : Row := row "S003" "75,78,80" "73,76,78" 82 90.

Definition table : list Row := [alice; bob; carol].

(** [alice] again, later in the table and with other values. *)
Definition alice_again : Row := row "S001" "40,38,35,32" "42,40,38,36" 50 0.

Definition table_with_duplicate : list Row := [alice; bob; alice_again].

(** A record with neither an attendance nor a completion column. *)
Definition bare : Row :=
  {| col_student_id := "TEST002";
     col_assignment_scores := Some (Some "70,75,80");
     col_quiz_scores := Some (Some "65,70,75");
     col_attendance := None;
     col_completion_rate := None |}.

(** An analyzer with a table loaded and nothing analyzed yet. *)
Definition loaded (rows : list Row) : StudentPerformanceAnalyzer :=
  snd (load_data_from_dataframe init rows).

(** The metrics of a record under the reference library. *)
Definition metrics_of (r : Row) : StudentMetrics :=
  match analyze_student (L := reference_lib) r with
  | Ok m => m
  | Raise _ =>
      {| student_id := ""; average_score := 0; attendance_rate := 0;
         assignment_completion := 0; trend := stable; risk_level := low |}
  end.

(** The entry of a record in the mapping. *)
Definition entry_of (r : Row) : string * StudentMetrics :=
  (col_student_id r, metrics_of r).

(** The analyzer after the analysis of a table whose identifiers are
    distinct, and the statistics of the test table. *)
Definition analyzed (rows : list Row) : StudentPerformanceAnalyzer :=
  {| data := Some rows;
     metrics := map (fun r => (col_student_id r, metrics_of r)) rows |}.

Definition table_statistics : CohortStatistics :=
  match get_statistics (L := reference_lib) (loaded table) with
  | Ok (stats, _) => stats
  | Raise _ =>
      {| total_students := 0; average_score_mean := 0;
         average_score_std := 0; average_attendance := 0;
         risk_distribution :=
           {| count_low := 0; count_medium := 0; count_high := 0 |};
         trend_distribution :=
           {| count_improving := 0; count_stable := 0;
              count_declining := 0 |};
         at_risk_percentage := 0 |}
  end.

(** A record whose attendance cell is empty. *)
Definition absent_minded : Row :=
  {| col_student_id := "S004";
     col_assignment_scores := Some (Some "20,10");
     col_quiz_scores := Some (Some "15");
     col_attendance := Some nan;
     col_completion_rate := Some 10 |}.

End Sample.

(** ** Vocabulary of the statements *)

Section Vocabulary.

Context {L : NumericLib}.

Local Open Scope string_scope.
Local Open Scope list_scope.

(** The exception is a [ValueError]. *)
Definition is_ValueError (e : exception) : Prop :=
  exists msg, e = ValueError msg.

(** The tokens of a series parse to [scores]. *)
Definition tokens_parse (s : string) (scores : list float) : Prop :=
  Forall2 (fun tok v => py_float (strip tok) = Some v) (split "," s) scores.

(** Some token of a series is not a number. *)
Definition token_fails (s : string) : Prop :=
  Exists (fun tok => py_float (strip tok) = None) (split "," s).

(** The identifiers of a list in the order in which each is first met. *)
Fixpoint first_occurrences (ids : list string) : list string :=
  match ids with
  | [] => []
  | id :: ids' =>
      id :: filter (fun k => negb (String.eqb k id)) (first_occurrences ids')
  end.

(** One step of the loop of [analyze_all_students]. *)
Definition put (d : dict) (m : StudentMetrics) : dict :=
  dict_set d (student_id m) m.

(** Membership of a key, [key in d]. *)
Definition mem (ks : list string) (k : string) : bool :=
  existsb (String.eqb k) ks.

(** The error of an analysis without a table. *)
Definition no_data_loaded : exception :=
  ValueError "No data loaded. Call load_data() first.".

(** The number of metrics at a risk level, with a trend label. *)
Definition count_risk (level : RiskLevel) (ms : list StudentMetrics) : nat :=
  List.length (filter (fun m => RiskLevel_eqb (risk_level m) level) ms).

Definition count_trend (label : TrendLabel) (ms : list StudentMetrics) : nat :=
  List.length (filter (fun m => TrendLabel_eqb (trend m) label) ms).

(** The statistics of an empty cohort. *)
Definition empty_statistics : CohortStatistics :=
  {| total_students := 0;
     average_score_mean := 0;
     average_score_std := 0;
     average_attendance := 0;
     risk_distribution :=
       {| count_low := 0; count_medium := 0; count_high := 0 |};
     trend_distribution :=
       {| count_improving := 0; count_stable := 0; count_declining := 0 |};
     at_risk_percentage := 0 |}.

(** A recommendation, present when its condition holds. *)
Definition when (cond : bool) (msg : string) : list string :=
  if cond then [msg] else [].

(** The recommendations that point at a problem, in the order in which
    [generate_recommendations] tests them. *)
Definition issues (m : StudentMetrics) : list string :=
  when (average_score m <? 60)%float msg_tutoring ++
  when (attendance_rate m <? 80)%float msg_attendance ++
  when (assignment_completion m <? 90)%float msg_completion ++
  when (TrendLabel_eqb (trend m) declining) msg_declining ++
  when (RiskLevel_eqb (risk_level m) high) msg_high_priority.

End Vocabulary.

(** ** Report generator

    [generate_general_recommendations] of [src/report_generator.py], on the
    statistics that [get_statistics] returns.  The first recommendation
    holds the percentage as Python prints a float in an f-string;
    [str_float] stands for that conversion. *)
Section ReportGenerator.

Variable str_float : float -> string.

Local Open Scope string_scope.
Local Open Scope list_scope.

Definition msg_at_risk (percentage : float) : string :=
  str_float percentage ++
  "% of students are at risk. Consider implementing additional support programs.".
Definition msg_low_attendance : string :=
  "Average attendance is below 80%. Consider strategies to improve student engagement.".
Definition msg_more_declining : string :=
  "More students are declining than improving. Review recent curriculum changes or teaching methods.".
Definition msg_low_score : string :=
  "Overall average score is below 70%. Consider reviewing assessment difficulty or providing more resources.".
Definition msg_good : string :=
  "Overall performance is good. Continue current teaching strategies.".
Definition msg_peer_tutoring : string :=
  "Consider implementing peer tutoring to help struggling students.".

Definition generate_general_recommendations (stats : CohortStatistics)
    : list string :=
  let recommendations := [] in
  let recommendations :=
    append_if (30 <? at_risk_percentage stats)%float recommendations
              (msg_at_risk (at_risk_percentage stats)) in
  let recommendations :=
    append_if (average_attendance stats <? 80)%float recommendations
              msg_low_attendance in
  let recommendations :=
    append_if (count_improving (trend_distribution stats) <?
               count_declining (trend_distribution stats))%nat
              recommendations msg_more_declining in
  let recommendations :=
    append_if (average_score_mean stats <? 70)%float recommendations
              msg_low_score in
  let recommendations :=
    if negb (nonempty recommendations) then
      (recommendations ++ [msg_good]) ++ [msg_peer_tutoring]
    else recommendations in
  recommendations.

(** The recommendations of [generate_general_recommendations] that point at
    a problem, in the order in which it tests them. *)
Definition general_issues (stats : CohortStatistics) : list string :=
  when (30 <? at_risk_percentage stats)%float
       (msg_at_risk (at_risk_percentage stats)) ++
  when (average_attendance stats <? 80)%float msg_low_attendance ++
  when (count_improving (trend_distribution stats) <?
        count_declining (trend_distribution stats))%nat msg_more_declining ++
  when (average_score_mean stats <? 70)%float msg_low_score.

End ReportGenerator.

(** A reference for [str_float]: how Python prints a float with at most two
    decimals, as [round(x, 2)] yields them for percentages. *)
Module ReferenceFormat.

Local Open Scope string_scope.

(** The integer that an integral float denotes. *)
Definition Z_of_integral (x : float) : Z :=
  match Prim2SF x with
  | S754_finite s m e =>
      let n := Z.shiftl (Z.pos m) e in if s then (- n)%Z else n
  | _ => 0%Z
  end.

Definition digits (n : Z) : string :=
  NilZero.string_of_uint (N.to_uint (Z.to_N n)).

Definition str_float (x : float) : string :=
  match Prim2SF x with
  | S754_nan => "nan"
  | S754_infinity s => if s then "-inf" else "inf"
  | _ =>
      let hundredths := Z.abs (Z_of_integral (Reference.rint (x * 100)%float)) in
      let whole := (hundredths / 100)%Z in
      let tenths := (hundredths mod 100 / 10)%Z in
      let last := (hundredths mod 10)%Z in
      (if (x <? 0)%float then "-" else "") ++
      digits whole ++ "." ++ digits tenths ++
      (if (last =? 0)%Z then "" else digits last)
  end.

End ReferenceFormat.

(** ** More vocabulary *)

(** The number of commas of a series. *)
Fixpoint count_commas (s : string) : nat :=
  match s with
  | EmptyString => 0
  | String c s' =>
      if Ascii.eqb c "," then S (count_commas s') else count_commas s'
  end.

(** The count of a risk level in the distribution of [get_statistics]. *)
Definition bucket (counts : RiskCounts) (level : RiskLevel) : nat :=
  match level with
  | low => count_low counts
  | medium => count_medium counts
  | high => count_high counts
  end.

(** Every entry of a mapping holds a metrics object under its own
    identifier. *)
Definition coherent (d : list (string * StudentMetrics)) : Prop :=
  Forall (fun km => student_id (snd km) = fst km) d.

(** The entry of a metrics object in the mapping: its identifier and it. *)
Definition entry (m : StudentMetrics) : string * StudentMetrics :=
  (student_id m, m).

(** * Properties *)

(** ** Order of binary64 numbers *)

Ltac sf_cases :=
  repeat match goal with
  | |- context [Z.compare ?a ?b] => destruct (Z.compare_spec a b); simpl
  | |- context [PosDef.Pos.compare_cont Eq ?a ?b] =>
      change (PosDef.Pos.compare_cont Eq a b) with (Pos.compare a b);
      destruct (Pos.compare_spec a b); simpl
  end.

Ltac sf_destruct x :=
  let s := fresh "s" in
  destruct x as [s | s | | s ? ?]; try destruct s.

Lemma SFltb_SFleb_false (x y : spec_float) :
  SFltb x y = true -> SFleb y x = false.
Proof.
  unfold SFltb, SFleb. sf_destruct x; sf_destruct y; simpl; try congruence;
    sf_cases; intros; subst; try congruence; lia.
Qed.

Lemma SFltb_SFleb_trans (x y z : spec_float) :
  SFltb x y = true -> SFleb y z = true -> SFltb x z = true.
Proof.
  unfold SFltb, SFleb.
  sf_destruct x; sf_destruct y; sf_destruct z; simpl; try congruence;
    sf_cases; intros; subst; try congruence; lia.
Qed.

Lemma SFltb_SFleb (x y : spec_float) : SFltb x y = true -> SFleb x y = true.
Proof.
  unfold SFltb, SFleb. destruct (SFcompare x y) as [[ | | ] | ]; congruence.
Qed.

Lemma ltb_leb_false (x y : float) :
  (x <? y)%float = true -> (y <=? x)%float = false.
Proof. rewrite ltb_spec, leb_spec. apply SFltb_SFleb_false. Qed.

Lemma ltb_leb_trans (x y z : float) :
  (x <? y)%float = true -> (y <=? z)%float = true -> (x <? z)%float = true.
Proof. rewrite !ltb_spec, leb_spec. apply SFltb_SFleb_trans. Qed.

Lemma ltb_asym (x y : float) :
  (x <? y)%float = true -> (y <? x)%float = false.
Proof.
  intros H. apply ltb_leb_false in H.
  destruct (y <? x)%float eqn:E; [ | reflexivity ].
  rewrite ltb_spec in E. apply SFltb_SFleb in E.
  rewrite <- leb_spec in E. congruence.
Qed.

(** ** The error monad *)

Lemma list_comprehension_Ok {A B : Type} (f : A -> result B) (l : list A)
    (ys : list B) :
  list_comprehension f l = Ok ys <-> Forall2 (fun x y => f x = Ok y) l ys.
Proof.
  revert ys. induction l as [ | x l IH]; intros ys; simpl.
  - split; intros H.
    + injection H as <-. constructor.
    + inversion H. reflexivity.
  - split; intros H.
    + destruct (f x) as [y | e] eqn:Ex; simpl in H; [ | discriminate ].
      destruct (list_comprehension f l) as [ys' | e] eqn:El; simpl in H;
        [ | discriminate ].
      injection H as <-. constructor; [ assumption | now apply IH ].
    + inversion H as [ | x' y l' ys' Hx Hl]; subst.
      rewrite Hx. simpl. apply IH in Hl. rewrite Hl. reflexivity.
Qed.

Lemma list_comprehension_Raise {A B : Type} (f : A -> result B) (l : list A)
    (P : exception -> Prop) :
  (forall x e, f x = Raise e -> P e) ->
  Exists (fun x => exists e, f x = Raise e) l ->
  exists e, list_comprehension f l = Raise e /\ P e.
Proof.
  intros HP. induction 1 as [x l [e He] | x l _ IH]; simpl.
  - rewrite He. simpl. eauto.
  - destruct (f x) as [y | e] eqn:Ex; simpl; [ | eauto ].
    destruct IH as [e [-> He]]. simpl. eauto.
Qed.

Lemma list_comprehension_cases {A B : Type} (f : A -> result B) (l : list A)
    (P : exception -> Prop) :
  (forall x e, f x = Raise e -> P e) ->
  (exists ys, list_comprehension f l = Ok ys) \/
  (exists e, list_comprehension f l = Raise e /\ P e).
Proof.
  intros HP. induction l as [ | x l IH]; simpl; [ eauto | ].
  destruct (f x) as [y | e] eqn:Ex; simpl; [ | eauto ].
  destruct IH as [[ys ->] | [e [-> He]]]; simpl; eauto.
Qed.

Section Correctness.

Context {L : NumericLib}.

Local Open Scope string_scope.
Local Open Scope list_scope.

(** ** Score parser *)

Lemma float_of_string_Ok (s : string) (v : float) :
  float_of_string s = Ok v <-> py_float s = Some v.
Proof.
  unfold float_of_string. destruct (py_float s); split; congruence.
Qed.

Lemma float_of_string_Raise (s : string) (e : exception) :
  float_of_string s = Raise e -> is_ValueError e.
Proof.
  unfold float_of_string. destruct (py_float s); intros H; [ discriminate | ].
  injection H as <-. eexists. reflexivity.
Qed.

Lemma parse_scores_Ok (s : string) (scores : list float) :
  parse_scores (Some s) = Ok scores <-> tokens_parse s scores.
Proof.
  unfold parse_scores, tokens_parse. simpl. rewrite list_comprehension_Ok.
  split; intros H; induction H; constructor; auto;
    now apply float_of_string_Ok.
Qed.

Lemma parse_scores_Raise (s : string) :
  token_fails s -> exists msg, parse_scores (Some s) = Raise (ValueError msg).
Proof.
  intros H. unfold parse_scores. simpl.
  destruct (list_comprehension_Raise (fun tok => float_of_string (strip tok))
              (split "," s) is_ValueError) as [e [He [msg ->]]].
  - intros x e. apply float_of_string_Raise.
  - induction H as [tok l Htok | tok l _ IH];
      [ apply Exists_cons_hd | now apply Exists_cons_tl ].
    unfold float_of_string. rewrite Htok. eauto.
  - eauto.
Qed.

Lemma parse_scores_cases (scores_str : series) :
  (exists scores, parse_scores scores_str = Ok scores) \/
  (exists msg, parse_scores scores_str = Raise (ValueError msg)).
Proof.
  unfold parse_scores.
  destruct (list_comprehension_cases
              (fun tok => float_of_string (strip tok))
              (split "," (str scores_str)) is_ValueError)
    as [H | [e [He [msg ->]]]]; eauto.
  intros x e. apply float_of_string_Raise.
Qed.

Lemma series_nonempty (s : string) :
  s <> "" -> isna (Some s) || is_empty_string (Some s) = false.
Proof.
  intros H. simpl. destruct (String.eqb_spec s ""); congruence.
Qed.

Lemma calculate_average_score_total (scores_str : series) :
  exists v, calculate_average_score scores_str = Ok v.
Proof.
  unfold calculate_average_score.
  destruct (isna scores_str || is_empty_string scores_str); [ eauto | ].
  destruct (parse_scores_cases scores_str) as [[scores ->] | [msg ->]];
    simpl; eauto.
Qed.

Lemma calculate_trend_total (scores_str : series) :
  exists t, calculate_trend scores_str = Ok t.
Proof.
  unfold calculate_trend.
  destruct (isna scores_str || is_empty_string scores_str); [ eauto | ].
  destruct (parse_scores_cases scores_str) as [[scores ->] | [msg ->]];
    simpl; [ | eauto ].
  repeat match goal with |- context [if ?b then _ else _] => destruct b end;
    simpl; eauto.
Qed.

(** C4: on a series whose comma-separated tokens (whitespace around them
    stripped) are all numbers, [calculate_average_score] is the arithmetic
    mean of the parsed values, the sum over the count, rounded to two
    decimals; on a missing or empty series, and when some token is not a
    number, it is 0.0; and no input makes it raise. *)
Theorem calculate_average_score_spec (scores_str : series) :
  (exists v, calculate_average_score scores_str = Ok v) /\
  (scores_str = None \/ scores_str = Some "" ->
   calculate_average_score scores_str = Ok 0%float) /\
  (forall s, scores_str = Some s -> token_fails s ->
   calculate_average_score scores_str = Ok 0%float) /\
  (forall s scores, scores_str = Some s -> s <> "" -> tokens_parse s scores ->
   calculate_average_score scores_str =
     Ok (round2 (np_sum scores / float_of_nat (List.length scores))%float)).
Proof.
  split; [ apply calculate_average_score_total | ].
  split; [ intros [-> | ->]; reflexivity | ].
  split.
  - intros s -> Hfail. unfold calculate_average_score.
    destruct (isna (Some s) || is_empty_string (Some s)); [ reflexivity | ].
    destruct (parse_scores_Raise s Hfail) as [msg ->]. reflexivity.
  - intros s scores -> Hs Hparse. unfold calculate_average_score.
    rewrite (series_nonempty s Hs).
    apply parse_scores_Ok in Hparse. rewrite Hparse. reflexivity.
Qed.

(** ** Trend classifier *)

(** C3: [calculate_trend] is [stable] on a missing or empty series, when some
    token is not a number, and when fewer than two scores are parsed.
    Otherwise the scores are cut at [mid = length / 2], the second part
    taking the extra element of an odd length, and with [delta] the mean of
    the second part minus the mean of the first, the trend is [improving]
    when [delta > 5], [declining] when [delta < -5] and [stable] otherwise,
    in particular when [delta] is exactly 5 or -5. *)
Theorem calculate_trend_spec (scores_str : series) :
  (scores_str = None \/ scores_str = Some "" ->
   calculate_trend scores_str = Ok stable) /\
  (forall s, scores_str = Some s -> token_fails s ->
   calculate_trend scores_str = Ok stable) /\
  (forall s scores, scores_str = Some s -> s <> "" -> tokens_parse s scores ->
   let mid := (List.length scores / 2)%nat in
   let first_half := firstn mid scores in
   let second_half := skipn mid scores in
   let delta := (np_mean second_half - np_mean first_half)%float in
   (List.length scores < 2 -> calculate_trend scores_str = Ok stable) /\
   (2 <= List.length scores ->
    first_half ++ second_half = scores /\
    List.length first_half = mid /\
    List.length second_half = (mid + List.length scores mod 2)%nat /\
    ((5 <? delta)%float = true ->
     calculate_trend scores_str = Ok improving) /\
    ((delta <? -5)%float = true ->
     calculate_trend scores_str = Ok declining) /\
    ((5 <? delta)%float = false -> (delta <? -5)%float = false ->
     calculate_trend scores_str = Ok stable) /\
    (delta = 5%float \/ delta = (-5)%float ->
     calculate_trend scores_str = Ok stable))).
Proof.
  split; [ intros [-> | ->]; reflexivity | ].
  split.
  - intros s -> Hfail. unfold calculate_trend.
    destruct (isna (Some s) || is_empty_string (Some s)); [ reflexivity | ].
    destruct (parse_scores_Raise s Hfail) as [msg ->]. reflexivity.
  - intros s scores -> Hs Hparse mid first_half second_half delta.
    assert (Hrun : calculate_trend (Some s) =
                   if (List.length scores <? 2)%nat then Ok stable
                   else if (5 <? delta)%float then Ok improving
                   else if (delta <? -5)%float then Ok declining
                   else Ok stable).
    { unfold calculate_trend. rewrite (series_nonempty s Hs).
      apply parse_scores_Ok in Hparse. rewrite Hparse.
      subst delta second_half first_half mid. cbn [bind]. cbv zeta.
      destruct (List.length scores <? 2)%nat; [ reflexivity | ].
      destruct (5 <? _)%float; [ reflexivity | ].
      destruct (_ <? -5)%float; reflexivity. }
    split.
    + intros Hlen. rewrite Hrun.
      destruct (Nat.ltb_spec (List.length scores) 2); [ reflexivity | lia ].
    + intros Hlen. rewrite Hrun.
      destruct (Nat.ltb_spec (List.length scores) 2) as [ | _]; [ lia | ].
      assert (Hmid : (mid <= List.length scores)%nat).
      { subst mid. apply Nat.Div0.div_le_upper_bound. lia. }
      split; [ apply firstn_skipn | ].
      split; [ subst first_half; rewrite length_firstn; lia | ].
      split.
      { subst second_half. rewrite length_skipn. subst mid.
        pose proof (Nat.div_mod_eq (List.length scores) 2). lia. }
      split; [ intros ->; reflexivity | ].
      split.
      { intros Hd. rewrite Hd.
        assert (H5 : (5 <? delta)%float = false).
        { apply ltb_asym. apply (ltb_leb_trans _ _ _ Hd). reflexivity. }
        rewrite H5. reflexivity. }
      split; [ intros -> ->; reflexivity | ].
      intros [-> | ->]; reflexivity.
Qed.

(** ** Risk scorer *)

(** C2: for any three numbers, with
    [risk = (100 - average_score) * 0.4 + (100 - attendance) * 0.3 +
            (100 - completion) * 0.3],
    [determine_risk_level] is [high] when [risk >= 40], [medium] when
    [20 <= risk < 40] and [low] when [risk < 20]; on (100, 100, 100) it is
    [low], on (80, 80, 80), where the risk is exactly 20, [medium], and on
    (40, 50, 60) [high]. *)
Theorem determine_risk_level_spec (avg_score attendance completion : float) :
  let risk := ((100 - avg_score) * 0.4 + (100 - attendance) * 0.3 +
               (100 - completion) * 0.3)%float in
  ((40 <=? risk)%float = true ->
   determine_risk_level avg_score attendance completion = high) /\
  ((20 <=? risk)%float = true -> (risk <? 40)%float = true ->
   determine_risk_level avg_score attendance completion = medium) /\
  ((risk <? 20)%float = true ->
   determine_risk_level avg_score attendance completion = low) /\
  determine_risk_level 100 100 100 = low /\
  ((100 - 80) * 0.4 + (100 - 80) * 0.3 + (100 - 80) * 0.3)%float = 20%float /\
  determine_risk_level 80 80 80 = medium /\
  determine_risk_level 40 50 60 = high.
Proof.
  intros risk. unfold determine_risk_level. fold risk.
  split; [ intros ->; reflexivity | ].
  split.
  { intros H20 H40. rewrite (ltb_leb_false _ _ H40), H20. reflexivity. }
  split.
  { intros H20.
    assert (H40 : (risk <? 40)%float = true).
    { apply (ltb_leb_trans _ _ _ H20). reflexivity. }
    rewrite (ltb_leb_false _ _ H40), (ltb_leb_false _ _ H20). reflexivity. }
  repeat split; reflexivity.
Qed.

(** ** Aggregator: one record *)

Lemma analyze_student_run (row : Row) :
  exists avg_assignment avg_quiz trend_label,
    calculate_average_score (get (col_assignment_scores row) (Some "")) =
      Ok avg_assignment /\
    calculate_average_score (get (col_quiz_scores row) (Some "")) =
      Ok avg_quiz /\
    calculate_trend (get (col_assignment_scores row) (Some "")) =
      Ok trend_label /\
    analyze_student row =
      Ok {| student_id := col_student_id row;
            average_score := round2 ((avg_assignment + avg_quiz) / 2)%float;
            attendance_rate := get (col_attendance row) 0%float;
            assignment_completion := get (col_completion_rate row) 100%float;
            trend := trend_label;
            risk_level :=
              determine_risk_level
                (round2 ((avg_assignment + avg_quiz) / 2)%float)
                (get (col_attendance row) 0%float)
                (get (col_completion_rate row) 100%float) |}.
Proof.
  destruct (calculate_average_score_total
              (get (col_assignment_scores row) (Some ""))) as [a Ha].
  destruct (calculate_average_score_total
              (get (col_quiz_scores row) (Some ""))) as [q Hq].
  destruct (calculate_trend_total
              (get (col_assignment_scores row) (Some ""))) as [t Ht].
  exists a, q, t. unfold analyze_student. rewrite Ha, Hq, Ht.
  repeat split; reflexivity.
Qed.

Lemma analyze_student_total (row : Row) :
  exists m, analyze_student row = Ok m /\ student_id m = col_student_id row.
Proof.
  destruct (analyze_student_run row) as (a & q & t & _ & _ & _ & H).
  rewrite H. eexists. split; reflexivity.
Qed.

(** C1: every record is analyzed into a [StudentMetrics] whose average score
    is [round((a + q) / 2, 2)] for [a] and [q] the parsed averages of the
    assignment and of the quiz series, whose trend is the trend of the
    assignment series, whose risk level is [determine_risk_level] of that
    average, the attendance and the completion, and whose completion is the
    record's completion rate when the field is present, an explicit 0
    included, and 100 when it is absent. *)
Theorem analyze_student_spec (row : Row) :
  exists avg_assignment avg_quiz trend_label m,
    calculate_average_score (get (col_assignment_scores row) (Some "")) =
      Ok avg_assignment /\
    calculate_average_score (get (col_quiz_scores row) (Some "")) =
      Ok avg_quiz /\
    calculate_trend (get (col_assignment_scores row) (Some "")) =
      Ok trend_label /\
    analyze_student row = Ok m /\
    student_id m = col_student_id row /\
    average_score m = round2 ((avg_assignment + avg_quiz) / 2)%float /\
    trend m = trend_label /\
    risk_level m =
      determine_risk_level (average_score m) (attendance_rate m)
                           (assignment_completion m) /\
    (forall c, col_completion_rate row = Some c ->
               assignment_completion m = c) /\
    (col_completion_rate row = Some 0%float ->
     assignment_completion m = 0%float) /\
    (col_completion_rate row = None -> assignment_completion m = 100%float) /\
    (forall a, col_attendance row = Some a -> attendance_rate m = a).
Proof.
  destruct (analyze_student_run row) as (a & q & t & Ha & Hq & Ht & H).
  exists a, q, t. eexists. repeat (split; [ eassumption || reflexivity | ]).
  simpl. repeat split; try (intros c Hc; rewrite Hc; reflexivity);
    intros Hc; rewrite Hc; reflexivity.
Qed.

(** C10: when the attendance field is absent the attendance rate of the
    metrics is 0.0 and the risk level is computed with attendance 0. *)
Theorem analyze_student_missing_attendance (row : Row) :
  col_attendance row = None ->
  exists m,
    analyze_student row = Ok m /\
    attendance_rate m = 0%float /\
    risk_level m =
      determine_risk_level (average_score m) 0%float
                           (assignment_completion m).
Proof.
  intros Hatt.
  destruct (analyze_student_run row) as (a & q & t & _ & _ & _ & H).
  rewrite H, Hatt. eexists. repeat split; reflexivity.
Qed.

(** ** The metrics mapping *)

Lemma analyze_rows_fold (rows : list Row) (ms : list StudentMetrics) :
  Forall2 (fun row m => analyze_student row = Ok m) rows ms ->
  forall acc, analyze_rows rows acc = Ok (fold_left put ms acc).
Proof.
  induction 1 as [ | row m rows ms Hm _ IH]; intros acc; simpl;
    [ reflexivity | ].
  rewrite Hm. simpl. apply IH.
Qed.

Lemma rows_analyzed (rows : list Row) :
  exists ms,
    Forall2 (fun row m => analyze_student row = Ok m) rows ms /\
    map student_id ms = map col_student_id rows.
Proof.
  induction rows as [ | row rows [ms [IH Hids]]].
  - exists []. split; [ constructor | reflexivity ].
  - destruct (analyze_student_total row) as [m [Hm Hid]].
    exists (m :: ms). split; [ now constructor | ].
    simpl. now rewrite Hid, Hids.
Qed.

Lemma dict_get_set (d : dict) (k k' : string) (v : StudentMetrics) :
  dict_get (dict_set d k v) k' =
    if String.eqb k k' then Some v else dict_get d k'.
Proof.
  induction d as [ | [k0 v0] d IH]; simpl; [ reflexivity | ].
  destruct (String.eqb_spec k0 k) as [-> | Hk]; simpl.
  - destruct (String.eqb k k'); reflexivity.
  - rewrite IH. destruct (String.eqb_spec k0 k') as [-> | Hk'];
      [ | reflexivity ].
    destruct (String.eqb_spec k k'); congruence.
Qed.

Lemma find_last {A : Type} (p : A -> bool) (l : list A) (x : A) :
  find p (rev (x :: l)) =
    match find p (rev l) with
    | Some y => Some y
    | None => if p x then Some x else None
    end.
Proof.
  simpl. generalize (rev l). intros l'.
  induction l' as [ | y l' IH]; simpl; [ reflexivity | ].
  destruct (p y); [ reflexivity | apply IH ].
Qed.

Lemma dict_get_fold (ms : list StudentMetrics) (id : string) :
  forall acc,
    dict_get (fold_left put ms acc) id =
      match find (fun m => String.eqb (student_id m) id) (rev ms) with
      | Some m => Some m
      | None => dict_get acc id
      end.
Proof.
  induction ms as [ | m ms IH]; intros acc; [ reflexivity | ].
  rewrite find_last. simpl fold_left. rewrite IH.
  destruct (find _ (rev ms)); [ reflexivity | ].
  unfold put. rewrite dict_get_set.
  destruct (String.eqb (student_id m) id); reflexivity.
Qed.

Lemma keys_set (d : dict) (k : string) (v : StudentMetrics) :
  keys (dict_set d k v) = if mem (keys d) k then keys d else keys d ++ [k].
Proof.
  unfold keys, mem. induction d as [ | [k0 v0] d IH]; simpl; [ reflexivity | ].
  rewrite (String.eqb_sym k k0).
  destruct (String.eqb k0 k); simpl; [ reflexivity | ].
  rewrite IH. destruct (existsb _ _); reflexivity.
Qed.

Lemma mem_app (ks : list string) (k k' : string) :
  mem (ks ++ [k]) k' = mem ks k' || String.eqb k' k.
Proof.
  unfold mem. rewrite existsb_app. simpl. now rewrite orb_false_r.
Qed.

Lemma filter_filter {A : Type} (p q : A -> bool) (l : list A) :
  filter p (filter q l) = filter (fun x => q x && p x) l.
Proof.
  induction l as [ | x l IH]; simpl; [ reflexivity | ].
  destruct (q x); simpl; [ destruct (p x) | ]; now rewrite IH.
Qed.

Lemma keys_fold (ms : list StudentMetrics) :
  forall acc,
    keys (fold_left put ms acc) =
      keys acc ++
      filter (fun k => negb (mem (keys acc) k))
             (first_occurrences (map student_id ms)).
Proof.
  induction ms as [ | m ms IH]; intros acc; simpl.
  - now rewrite app_nil_r.
  - rewrite IH. unfold put at 1 2. rewrite keys_set, filter_filter.
    destruct (mem (keys acc) (student_id m)) eqn:Hmem.
    + f_equal. apply filter_ext. intros k.
      destruct (String.eqb_spec k (student_id m)) as [-> | _]; simpl;
        [ now rewrite Hmem | reflexivity ].
    + rewrite <- app_assoc. simpl. f_equal. f_equal.
      apply filter_ext. intros k. rewrite mem_app.
      rewrite negb_orb. apply andb_comm.
Qed.

Lemma mem_In (ks : list string) (k : string) : mem ks k = true <-> In k ks.
Proof.
  unfold mem. rewrite existsb_exists. split.
  - intros [x [Hin Heq]]. apply String.eqb_eq in Heq. now subst.
  - intros Hin. exists k. split; [ assumption | apply String.eqb_refl ].
Qed.

Lemma NoDup_keys_set (d : dict) (k : string) (v : StudentMetrics) :
  NoDup (keys d) -> NoDup (keys (dict_set d k v)).
Proof.
  intros Hd. rewrite keys_set. destruct (mem (keys d) k) eqn:Hmem;
    [ assumption | ].
  apply NoDup_app; [ assumption | repeat constructor; intros [] | ].
  intros x Hx [<- | []]. apply mem_In in Hx. congruence.
Qed.

Lemma NoDup_keys_fold (ms : list StudentMetrics) :
  forall acc, NoDup (keys acc) -> NoDup (keys (fold_left put ms acc)).
Proof.
  induction ms as [ | m ms IH]; intros acc Hacc; simpl; [ assumption | ].
  apply IH. now apply NoDup_keys_set.
Qed.

Lemma values_by_key (d : dict) :
  NoDup (keys d) ->
  Forall2 (fun k m => dict_get d k = Some m) (keys d) (values d).
Proof.
  unfold keys, values. induction d as [ | [k v] d IH]; simpl; intros Hd;
    [ constructor | ].
  inversion Hd as [ | k' ks Hk Hks]; subst. constructor.
  - now rewrite String.eqb_refl.
  - specialize (IH Hks).
    assert (Hin : forall k', In k' (map fst d) -> k <> k') by
      (intros k' Hk' ->; contradiction).
    revert IH Hin. generalize (map fst d) (map snd d). intros ks vs IH.
    induction IH as [ | k' m ks vs H _ IH']; intros Hin; constructor.
    + destruct (String.eqb_spec k k') as [-> | _]; [ | assumption ].
      exfalso. apply (Hin k'); [ now left | reflexivity ].
    + apply IH'. intros k'' Hk''. apply Hin. now right.
Qed.

(** ** Aggregator: the whole table *)

Lemma analyze_all_students_run (self : StudentPerformanceAnalyzer)
    (rows : list Row) :
  data self = Some rows ->
  exists ms,
    Forall2 (fun row m => analyze_student row = Ok m) rows ms /\
    map student_id ms = map col_student_id rows /\
    analyze_all_students self =
      Ok (fold_left put ms [],
          {| data := Some rows; metrics := fold_left put ms [] |}).
Proof.
  intros Hdata. destruct (rows_analyzed rows) as [ms [Hms Hids]].
  exists ms. split; [ assumption | ]. split; [ assumption | ].
  unfold analyze_all_students. rewrite Hdata.
  rewrite (analyze_rows_fold rows ms Hms). reflexivity.
Qed.

(** C5: [analyze_all_students] raises the no-data error exactly when no
    table has been loaded, as on a new analyzer; once a table is loaded,
    empty or not, it returns a mapping, and on the empty table the empty
    mapping. *)
Theorem analyze_all_students_no_data (self : StudentPerformanceAnalyzer) :
  ((exists e, analyze_all_students self = Raise e) <-> data self = None) /\
  (data self = None -> analyze_all_students self = Raise no_data_loaded) /\
  analyze_all_students init = Raise no_data_loaded /\
  (forall df,
     exists d self',
       analyze_all_students (snd (load_data_from_dataframe self df)) =
         Ok (d, self')) /\
  (forall rows, data self = Some rows ->
     exists d,
       analyze_all_students self =
         Ok (d, {| data := Some rows; metrics := d |})) /\
  (data self = Some [] ->
   analyze_all_students self = Ok ([], {| data := Some []; metrics := [] |})).
Proof.
  assert (Hnone : data self = None ->
                  analyze_all_students self = Raise no_data_loaded).
  { intros H. unfold analyze_all_students. rewrite H. reflexivity. }
  assert (Hsome : forall s rows, data s = Some rows ->
            exists d, analyze_all_students s =
                        Ok (d, {| data := Some rows; metrics := d |})).
  { intros s rows H.
    destruct (analyze_all_students_run s rows H) as (ms & _ & _ & ->).
    eauto. }
  split.
  { split.
    - intros [e He]. destruct (data self) as [rows | ] eqn:Hd;
        [ | reflexivity ].
      destruct (Hsome self rows Hd) as [d Hok]. congruence.
    - intros H. rewrite (Hnone H). eauto. }
  split; [ assumption | ].
  split; [ reflexivity | ].
  split.
  { intros df. destruct (Hsome (snd (load_data_from_dataframe self df)) df)
      as [d Hd]; [ reflexivity | eauto ]. }
  split; [ apply Hsome | ].
  intros H. unfold analyze_all_students. rewrite H. reflexivity.
Qed.

(** C9: a second [analyze_all_students] on the unchanged table returns the
    mapping of the first call: the same keys in the same order, and for
    every identifier the same metrics. *)
Theorem analyze_all_students_idempotent (self self' : StudentPerformanceAnalyzer)
    (d : dict) :
  analyze_all_students self = Ok (d, self') ->
  data self' = data self /\
  analyze_all_students self' = Ok (d, self') /\
  (forall d'' self'',
     analyze_all_students self' = Ok (d'', self'') ->
     forall id, dict_get d'' id = dict_get d id).
Proof.
  unfold analyze_all_students.
  destruct (data self) as [rows | ] eqn:Hdata; [ | discriminate ].
  destruct (analyze_rows rows []) as [d0 | e] eqn:Hrows; [ | discriminate ].
  simpl. intros H. injection H as <- <-. simpl.
  split; [ reflexivity | ].
  rewrite Hrows. simpl.
  split; [ reflexivity | ].
  intros d'' self'' H. now injection H as <- _.
Qed.

(** C8: the mapping built from a table holds, for each identifier, the
    metrics of the last record that carries it, and its keys stand in the
    order in which the identifiers are first met in the table;
    [get_at_risk_students] returns the metrics of the mapping whose risk
    level is the requested one, in the order of the mapping. *)
Theorem analyze_all_students_last_write_wins
    (self : StudentPerformanceAnalyzer) (rows : list Row) :
  data self = Some rows ->
  exists ms d,
    Forall2 (fun row m => analyze_student row = Ok m) rows ms /\
    map student_id ms = map col_student_id rows /\
    analyze_all_students self =
      Ok (d, {| data := Some rows; metrics := d |}) /\
    keys d = first_occurrences (map col_student_id rows) /\
    (forall id,
       dict_get d id =
         find (fun m => String.eqb (student_id m) id) (rev ms)) /\
    Forall2 (fun id m => dict_get d id = Some m) (keys d) (values d) /\
    (forall level,
       let at_level :=
         filter (fun m => RiskLevel_eqb (risk_level m) level) (values d) in
       get_at_risk_students {| data := Some rows; metrics := d |} level =
         Ok (at_level, {| data := Some rows; metrics := d |}) /\
       (metrics self = [] ->
        get_at_risk_students self level =
          Ok (at_level, {| data := Some rows; metrics := d |})) /\
       (forall m, In m at_level <-> In m (values d) /\ risk_level m = level)).
Proof.
  intros Hdata.
  destruct (analyze_all_students_run self rows Hdata) as (ms & Hms & Hids & Hrun).
  exists ms, (fold_left put ms []).
  split; [ assumption | ]. split; [ assumption | ]. split; [ assumption | ].
  split.
  { rewrite keys_fold, <- Hids. simpl.
    erewrite filter_ext; [ apply filter_true | ]. reflexivity. }
  split.
  { intros id. rewrite dict_get_fold. simpl.
    destruct (find _ (rev ms)); reflexivity. }
  split.
  { apply values_by_key. apply NoDup_keys_fold. constructor. }
  intros level at_level.
  assert (Hagain : analyze_all_students
                     {| data := Some rows; metrics := fold_left put ms [] |} =
                   Ok (fold_left put ms [],
                       {| data := Some rows;
                          metrics := fold_left put ms [] |})).
  { unfold analyze_all_students. simpl.
    rewrite (analyze_rows_fold rows ms Hms). reflexivity. }
  split.
  { unfold get_at_risk_students, ensure_analyzed. simpl metrics.
    destruct (dict_is_empty (fold_left put ms [])) eqn:Hempty.
    - rewrite Hagain. reflexivity.
    - reflexivity. }
  split.
  { intros Hnil. unfold get_at_risk_students, ensure_analyzed.
    rewrite Hnil, Hrun. reflexivity. }
  intros m. subst at_level. rewrite filter_In.
  destruct (risk_level m), level; simpl; intuition congruence.
Qed.

(** ** Cohort statistics *)

Lemma count_buckets_from (ms : list StudentMetrics) :
  forall (rc : RiskCounts) (tc : TrendCounts),
    fold_left
      (fun counts m =>
         (incr_risk (fst counts) (risk_level m),
          incr_trend (snd counts) (trend m)))
      ms (rc, tc) =
    ({| count_low := count_low rc + count_risk low ms;
        count_medium := count_medium rc + count_risk medium ms;
        count_high := count_high rc + count_risk high ms |},
     {| count_improving := count_improving tc + count_trend improving ms;
        count_stable := count_stable tc + count_trend stable ms;
        count_declining := count_declining tc + count_trend declining ms |}).
Proof.
  unfold count_risk, count_trend.
  induction ms as [ | m ms IH]; intros [l md h] [i s dc]; simpl.
  - now rewrite !Nat.add_0_r.
  - rewrite IH. destruct (risk_level m), (trend m); simpl;
      repeat (f_equal; try lia).
Qed.

Lemma count_buckets_spec (ms : list StudentMetrics) :
  count_buckets ms =
    ({| count_low := count_risk low ms;
        count_medium := count_risk medium ms;
        count_high := count_risk high ms |},
     {| count_improving := count_trend improving ms;
        count_stable := count_trend stable ms;
        count_declining := count_trend declining ms |}).
Proof. unfold count_buckets. now rewrite count_buckets_from. Qed.

Lemma ensure_analyzed_total (self : StudentPerformanceAnalyzer)
    (rows : list Row) :
  data self = Some rows ->
  exists self',
    ensure_analyzed self = Ok self' /\
    (metrics self <> [] -> self' = self).
Proof.
  intros Hdata. unfold ensure_analyzed.
  destruct (metrics self) as [ | kv d] eqn:Hm; simpl.
  - destruct (analyze_all_students_run self rows Hdata) as (ms & _ & _ & ->).
    simpl. eexists. split; [ reflexivity | congruence ].
  - eauto.
Qed.

Lemma ensure_analyzed_empty (self : StudentPerformanceAnalyzer) :
  data self = Some [] -> metrics self = [] ->
  ensure_analyzed self = Ok {| data := Some []; metrics := [] |}.
Proof.
  intros Hdata Hm. unfold ensure_analyzed, analyze_all_students.
  rewrite Hm, Hdata. reflexivity.
Qed.

(** C6: once a table is loaded, [get_statistics] returns, also on an empty
    cohort.  With [ms] the metrics it is computed from, the total is their
    number and each bucket counts the metrics of its level or label; when
    [ms] is empty, as it is for an empty table, the total, the mean and the
    deviation of the scores, the mean attendance, every bucket and the
    at-risk percentage are 0;
    otherwise the at-risk percentage is
    [round((medium + high) / total * 100, 2)], a Python float rounded by
    the builtin [round], and the deviation of the scores is the population
    one: the square root of the sum of the squared deviations from the mean
    over the number of scores, rounded as numpy rounds. *)
Theorem get_statistics_spec (self : StudentPerformanceAnalyzer)
    (rows : list Row) :
  data self = Some rows ->
  exists stats self',
    ensure_analyzed self = Ok self' /\
    get_statistics self = Ok (stats, self') /\
    let ms := values (metrics self') in
    let scores := map average_score ms in
    let mean := (np_sum scores / float_of_nat (List.length scores))%float in
    total_students stats = List.length ms /\
    risk_distribution stats =
      {| count_low := count_risk low ms;
         count_medium := count_risk medium ms;
         count_high := count_risk high ms |} /\
    trend_distribution stats =
      {| count_improving := count_trend improving ms;
         count_stable := count_trend stable ms;
         count_declining := count_trend declining ms |} /\
    (ms = [] -> stats = empty_statistics) /\
    (rows = [] -> metrics self = [] -> stats = empty_statistics) /\
    (ms <> [] ->
     at_risk_percentage stats =
       builtin_round2
         (float_of_nat (count_risk medium ms + count_risk high ms) /
          float_of_nat (total_students stats) * 100)%float /\
     average_score_mean stats = round2 mean /\
     average_score_std stats =
       round2 (sqrt (np_sum (map (fun x => (x - mean) * (x - mean))%float
                                 scores) /
                     float_of_nat (List.length scores)))%float /\
     average_attendance stats = round2 (np_mean (map attendance_rate ms))).
Proof.
  intros Hdata.
  destruct (ensure_analyzed_total self rows Hdata) as [self' [Hself' _]].
  unfold get_statistics. rewrite Hself'. cbn [bind].
  rewrite count_buckets_spec. cbn [fst snd count_high count_medium].
  destruct (metrics self') as [ | [k m] d] eqn:Hm.
  - simpl. eexists. eexists. split; [ reflexivity | ].
    split; [ reflexivity | ]. rewrite Hm. simpl.
    do 3 (split; [ reflexivity | ]).
    split; [ intros _; reflexivity | ].
    split; [ intros _ _; reflexivity | ].
    intros H. now contradiction H.
  - cbn [dict_is_empty negb]. unfold int_truediv.
    cbn [List.length Nat.eqb bind values map nonempty].
    eexists. eexists. split; [ reflexivity | ].
    split; [ reflexivity | ]. rewrite Hm.
    cbn [total_students risk_distribution trend_distribution
         at_risk_percentage average_score_mean average_score_std
         average_attendance values map].
    split; [ simpl; now rewrite !length_map | ].
    split; [ reflexivity | ]. split; [ reflexivity | ].
    split; [ discriminate | ].
    split.
    { intros -> Hnil. rewrite (ensure_analyzed_empty self Hdata Hnil) in Hself'.
      injection Hself' as <-. discriminate Hm. }
    intros _. split.
    { rewrite (Nat.add_comm (count_risk medium _)). reflexivity. }
    split; [ reflexivity | ].
    split; [ | reflexivity ].
    unfold np_std, np_var. cbv zeta. rewrite Nat.sub_0_r, map_map.
    reflexivity.
Qed.

(** ** Recommendations *)

Lemma generate_recommendations_issues (self : StudentPerformanceAnalyzer)
    (id : string) (m : StudentMetrics) :
  dict_get (metrics self) id = Some m ->
  generate_recommendations self id =
    if nonempty (issues m) then issues m else [msg_performing_well].
Proof.
  intros Hm. unfold generate_recommendations, issues. rewrite Hm.
  destruct (average_score m <? 60)%float, (attendance_rate m <? 80)%float,
    (assignment_completion m <? 90)%float,
    (TrendLabel_eqb (trend m) declining),
    (RiskLevel_eqb (risk_level m) high); reflexivity.
Qed.

Lemma issues_not_positive (m : StudentMetrics) :
  ~ In msg_performing_well (issues m).
Proof.
  unfold issues, when. rewrite !in_app_iff.
  destruct (average_score m <? 60)%float, (attendance_rate m <? 80)%float,
    (assignment_completion m <? 90)%float,
    (TrendLabel_eqb (trend m) declining),
    (RiskLevel_eqb (risk_level m) high); simpl;
    intuition discriminate.
Qed.

Lemma issues_nil (m : StudentMetrics) :
  issues m = [] <->
  (average_score m <? 60)%float = false /\
  (attendance_rate m <? 80)%float = false /\
  (assignment_completion m <? 90)%float = false /\
  trend m <> declining /\
  risk_level m <> high.
Proof.
  unfold issues, when.
  destruct (average_score m <? 60)%float, (attendance_rate m <? 80)%float,
    (assignment_completion m <? 90)%float, (trend m), (risk_level m); simpl;
    split; intros H; try discriminate H; try reflexivity;
    try (repeat split; congruence);
    try (destruct H as (? & ? & ? & ? & ?); congruence).
Qed.

(** C7: for an identifier that is not in the mapping the recommendations are
    the single not-found message.  For one that is, the five conditions
    (average score < 60, attendance < 80, completion < 90, declining trend,
    high risk) are tested in this order and each that holds adds its
    message; the positive message is returned, alone, exactly when none of
    them holds; the list is never empty. *)
Theorem generate_recommendations_spec (self : StudentPerformanceAnalyzer)
    (id : string) :
  (dict_get (metrics self) id = None ->
   generate_recommendations self id = [msg_not_found]) /\
  (forall m, dict_get (metrics self) id = Some m ->
     (issues m <> [] -> generate_recommendations self id = issues m) /\
     (issues m = [] ->
      generate_recommendations self id = [msg_performing_well]) /\
     (In msg_performing_well (generate_recommendations self id) <->
      (average_score m <? 60)%float = false /\
      (attendance_rate m <? 80)%float = false /\
      (assignment_completion m <? 90)%float = false /\
      trend m <> declining /\
      risk_level m <> high) /\
     (In msg_performing_well (generate_recommendations self id) ->
      generate_recommendations self id = [msg_performing_well])) /\
  generate_recommendations self id <> [].
Proof.
  split.
  { intros H. unfold generate_recommendations. now rewrite H. }
  split.
  - intros m Hm. rewrite (generate_recommendations_issues self id m Hm).
    pose proof (issues_not_positive m) as Hpos.
    rewrite <- issues_nil.
    destruct (issues m) as [ | r rs]; simpl.
    + repeat split; try congruence; auto.
    + repeat split; try congruence; try contradiction; discriminate.
  - destruct (dict_get (metrics self) id) as [m | ] eqn:Hm.
    + rewrite (generate_recommendations_issues self id m Hm).
      destruct (issues m); discriminate.
    + unfold generate_recommendations. rewrite Hm. discriminate.
Qed.

End Correctness.

(** * Runs on the reference library *)

Section Runs.

Local Existing Instance reference_lib.

Local Open Scope string_scope.
Local Open Scope list_scope.

Lemma tokens_parse_run (s : string) (scores : list float) :
  parse_scores (Some s) = Ok scores -> tokens_parse s scores.
Proof. apply parse_scores_Ok. Qed.

Lemma token_fails_run (s : string) :
  existsb (fun tok => match py_float (strip tok) with
                      | None => true
                      | Some _ => false
                      end) (split "," s) = true ->
  token_fails s.
Proof.
  intros H. apply existsb_exists in H. destruct H as [tok [Hin Htok]].
  apply Exists_exists. exists tok. split; [ assumption | ].
  destruct (py_float (strip tok)); [ discriminate | reflexivity ].
Qed.

(** The score parser on the series of the test suite. *)
Lemma calculate_average_score_spec_witness :
  calculate_average_score (Some "80,85,90,95,100") = Ok 90%float /\
  calculate_average_score (Some "80, 85, 90") = Ok 85%float /\
  calculate_average_score (Some "invalid,data") = Ok 0%float /\
  calculate_average_score (Some "") = Ok 0%float /\
  calculate_average_score None = Ok 0%float.
Proof.
  split.
  { pose proof (proj2 (proj2 (proj2
                  (calculate_average_score_spec (Some "80,85,90,95,100"))))
                  "80,85,90,95,100" [80; 85; 90; 95; 100]%float eq_refl) as H.
    exact (H ltac:(discriminate) ltac:(apply tokens_parse_run; reflexivity)). }
  split.
  { pose proof (proj2 (proj2 (proj2
                  (calculate_average_score_spec (Some "80, 85, 90"))))
                  "80, 85, 90" [80; 85; 90]%float eq_refl) as H.
    exact (H ltac:(discriminate) ltac:(apply tokens_parse_run; reflexivity)). }
  split.
  { apply (proj1 (proj2 (proj2
             (calculate_average_score_spec (Some "invalid,data"))))
             "invalid,data");
      [ reflexivity | apply token_fails_run; reflexivity ]. }
  split.
  { apply (proj1 (proj2 (calculate_average_score_spec (Some "")))).
    right. reflexivity. }
  apply (proj1 (proj2 (calculate_average_score_spec None))).
  left. reflexivity.
Defined.

(** The trend classifier on the series of the test suite, and on a series
    whose halves differ by exactly 5. *)
Lemma calculate_trend_spec_witness :
  calculate_trend (Some "60,62,65,70,75,80,85,90") = Ok improving /\
  calculate_trend (Some "90,85,80,75,70,65,60,55") = Ok declining /\
  calculate_trend (Some "75,76,74,75,76,75,74,75") = Ok stable /\
  calculate_trend (Some "70,75") = Ok stable /\
  calculate_trend (Some "75") = Ok stable /\
  calculate_trend (Some "seventy,80") = Ok stable /\
  calculate_trend None = Ok stable.
Proof.
  split.
  { destruct (proj2 (proj2 (calculate_trend_spec
                (Some "60,62,65,70,75,80,85,90")))
                "60,62,65,70,75,80,85,90"
                [60; 62; 65; 70; 75; 80; 85; 90]%float)
      as [_ H];
      [ reflexivity | discriminate | apply tokens_parse_run; reflexivity | ].
    destruct H as (_ & _ & _ & H & _); [ simpl; lia | ].
    apply H. reflexivity. }
  split.
  { destruct (proj2 (proj2 (calculate_trend_spec
                (Some "90,85,80,75,70,65,60,55")))
                "90,85,80,75,70,65,60,55"
                [90; 85; 80; 75; 70; 65; 60; 55]%float)
      as [_ H];
      [ reflexivity | discriminate | apply tokens_parse_run; reflexivity | ].
    destruct H as (_ & _ & _ & _ & H & _); [ simpl; lia | ].
    apply H. reflexivity. }
  split.
  { destruct (proj2 (proj2 (calculate_trend_spec
                (Some "75,76,74,75,76,75,74,75")))
                "75,76,74,75,76,75,74,75"
                [75; 76; 74; 75; 76; 75; 74; 75]%float)
      as [_ H];
      [ reflexivity | discriminate | apply tokens_parse_run; reflexivity | ].
    destruct H as (_ & _ & _ & _ & _ & H & _); [ simpl; lia | ].
    apply H; reflexivity. }
  split.
  { destruct (proj2 (proj2 (calculate_trend_spec (Some "70,75")))
                "70,75" [70; 75]%float)
      as [_ H];
      [ reflexivity | discriminate | apply tokens_parse_run; reflexivity | ].
    destruct H as (_ & _ & _ & _ & _ & _ & H); [ simpl; lia | ].
    apply H. left. reflexivity. }
  split.
  { destruct (proj2 (proj2 (calculate_trend_spec (Some "75")))
                "75" [75]%float)
      as [H _];
      [ reflexivity | discriminate | apply tokens_parse_run; reflexivity | ].
    apply H. simpl. lia. }
  split.
  { apply (proj1 (proj2 (calculate_trend_spec (Some "seventy,80")))
             "seventy,80");
      [ reflexivity | apply token_fails_run; reflexivity ]. }
  apply (proj1 (calculate_trend_spec None)). left. reflexivity.
Defined.

(** The risk scorer on the triples of the test suite. *)
Lemma determine_risk_level_spec_witness :
  determine_risk_level 40 50 60 = high /\
  determine_risk_level 70 75 80 = medium /\
  determine_risk_level 90 95 100 = low /\
  determine_risk_level 150 150 150 = low.
Proof.
  split.
  { apply (proj1 (determine_risk_level_spec 40 50 60)). reflexivity. }
  split.
  { apply (proj1 (proj2 (determine_risk_level_spec 70 75 80)));
      reflexivity. }
  split.
  { apply (proj1 (proj2 (proj2 (determine_risk_level_spec 90 95 100)))).
    reflexivity. }
  apply (proj1 (proj2 (proj2 (determine_risk_level_spec 150 150 150)))).
  reflexivity.
Defined.

(** The first end-to-end scenario, a record with an explicit completion of
    0 and a record without the completion column. *)
Lemma analyze_student_spec_witness :
  (exists m, analyze_student Sample.alice = Ok m /\
             average_score m = 91%float /\ trend m = stable /\
             risk_level m = low /\ assignment_completion m = 100%float) /\
  (exists m, analyze_student Sample.alice_again = Ok m /\
             assignment_completion m = 0%float) /\
  (exists m, analyze_student Sample.bare = Ok m /\
             assignment_completion m = 100%float).
Proof.
  split.
  { destruct (analyze_student_spec Sample.alice)
      as (a & q & t & m & Ha & Hq & Ht & Hm & _ & Havg & Htrend & Hrisk &
          Hc & _ & _ & Hatt).
    exists m. split; [ exact Hm | ].
    injection Ha as <-. injection Hq as <-. injection Ht as <-.
    specialize (Hc 100%float eq_refl). specialize (Hatt 95%float eq_refl).
    rewrite Hrisk, Havg, Htrend, Hc, Hatt. repeat split; reflexivity. }
  split.
  { destruct (analyze_student_spec Sample.alice_again)
      as (a & q & t & m & _ & _ & _ & Hm & _ & _ & _ & _ & _ & H0 & _).
    exists m. split; [ exact Hm | apply H0; reflexivity ]. }
  destruct (analyze_student_spec Sample.bare)
    as (a & q & t & m & _ & _ & _ & Hm & _ & _ & _ & _ & _ & _ & Hnone & _).
  exists m. split; [ exact Hm | apply Hnone; reflexivity ].
Defined.

(** A record without the attendance column. *)
Lemma analyze_student_missing_attendance_witness :
  exists m,
    analyze_student Sample.bare = Ok m /\
    attendance_rate m = 0%float /\
    risk_level m =
      determine_risk_level (average_score m) 0%float
                           (assignment_completion m).
Proof.
  apply (analyze_student_missing_attendance Sample.bare). reflexivity.
Defined.

(** A new analyzer, a loaded table and a loaded empty table. *)
Lemma analyze_all_students_no_data_witness :
  analyze_all_students init = Raise no_data_loaded /\
  (exists d,
     analyze_all_students (Sample.loaded Sample.table) =
       Ok (d, {| data := Some Sample.table; metrics := d |})) /\
  analyze_all_students (Sample.loaded []) =
    Ok ([], {| data := Some []; metrics := [] |}).
Proof.
  split.
  { apply (proj1 (proj2 (analyze_all_students_no_data init))). reflexivity. }
  split.
  { apply (proj1 (proj2 (proj2 (proj2 (proj2
             (analyze_all_students_no_data (Sample.loaded Sample.table))))))).
    reflexivity. }
  apply (proj2 (proj2 (proj2 (proj2 (proj2
           (analyze_all_students_no_data (Sample.loaded []))))))).
  reflexivity.
Defined.

(** The analysis of the test table, run twice. *)
Lemma analyze_all_students_idempotent_witness :
  let d := map (fun r => (col_student_id r, Sample.metrics_of r))
               Sample.table in
  let analyzed := {| data := Some Sample.table; metrics := d |} in
  analyze_all_students (Sample.loaded Sample.table) = Ok (d, analyzed) /\
  analyze_all_students analyzed = Ok (d, analyzed).
Proof.
  intros d analyzed.
  assert (H : analyze_all_students (Sample.loaded Sample.table) =
              Ok (d, analyzed)) by reflexivity.
  split; [ exact H | ].
  apply (analyze_all_students_idempotent _ _ _ H).
Defined.

(** A table in which the identifier S001 comes twice. *)
Lemma analyze_all_students_last_write_wins_witness :
  exists d,
    analyze_all_students (Sample.loaded Sample.table_with_duplicate) =
      Ok (d, {| data := Some Sample.table_with_duplicate; metrics := d |}) /\
    keys d = ["S001"; "S002"] /\
    dict_get d "S001" = Some (Sample.metrics_of Sample.alice_again) /\
    dict_get d "S002" = Some (Sample.metrics_of Sample.bob) /\
    get_at_risk_students (Sample.loaded Sample.table_with_duplicate) high =
      Ok ([Sample.metrics_of Sample.alice_again; Sample.metrics_of Sample.bob],
          {| data := Some Sample.table_with_duplicate; metrics := d |}).
Proof.
  destruct (analyze_all_students_last_write_wins
              (Sample.loaded Sample.table_with_duplicate)
              Sample.table_with_duplicate eq_refl)
    as (ms & d & _ & _ & Hrun & Hkeys & _ & _ & Hrisk).
  exists d. split; [ exact Hrun | ]. split; [ exact Hkeys | ].
  destruct (Hrisk high) as (_ & Hfresh & _).
  specialize (Hfresh eq_refl).
  injection Hrun as Hd. subst d.
  split; [ reflexivity | ]. split; [ reflexivity | ]. exact Hfresh.
Defined.

(** The statistics of the empty table and of the test table. *)
Lemma get_statistics_spec_witness :
  get_statistics (Sample.loaded []) =
    Ok (empty_statistics, {| data := Some []; metrics := [] |}) /\
  (exists stats self',
     get_statistics (Sample.loaded Sample.table) = Ok (stats, self') /\
     total_students stats = 3 /\
     risk_distribution stats =
       {| count_low := 2; count_medium := 0; count_high := 1 |} /\
     at_risk_percentage stats = builtin_round2 (1 / 3 * 100)%float /\
     at_risk_percentage stats = 33.33%float).
Proof.
  split.
  { destruct (get_statistics_spec (Sample.loaded []) [] eq_refl)
      as (stats & self' & Hself' & Hrun & _ & _ & _ & _ & Hempty & _).
    rewrite (Hempty eq_refl eq_refl) in Hrun.
    injection Hself' as <-. exact Hrun. }
  destruct (get_statistics_spec (Sample.loaded Sample.table) Sample.table
              eq_refl)
    as (stats & self' & Hself' & Hrun & Htotal & Hrisk & _ & _ & _ & Hfull).
  exists stats, self'. split; [ exact Hrun | ].
  injection Hself' as <-.
  destruct Hfull as (Hpct & _); [ discriminate | ].
  rewrite Hpct, Htotal, Hrisk. repeat split; reflexivity.
Defined.

(** The recommendations for the students of the test table and for an
    unknown identifier. *)
Lemma generate_recommendations_spec_witness :
  let analyzed :=
    {| data := Some Sample.table;
       metrics := map (fun r => (col_student_id r, Sample.metrics_of r))
                      Sample.table |} in
  generate_recommendations analyzed "UNKNOWN" = [msg_not_found] /\
  generate_recommendations analyzed "S001" = [msg_performing_well] /\
  generate_recommendations analyzed "S002" =
    [msg_tutoring; msg_attendance; msg_completion; msg_high_priority].
Proof.
  intros analyzed. split.
  { apply (proj1 (generate_recommendations_spec analyzed "UNKNOWN")).
    reflexivity. }
  split.
  { destruct (proj1 (proj2 (generate_recommendations_spec analyzed "S001"))
                (Sample.metrics_of Sample.alice) eq_refl)
      as (_ & H & _).
    apply H. reflexivity. }
  destruct (proj1 (proj2 (generate_recommendations_spec analyzed "S002"))
              (Sample.metrics_of Sample.bob) eq_refl)
    as (H & _).
  rewrite H; [ reflexivity | discriminate ].
Defined.

End Runs.

(** * Further properties of the analyzer *)

(** ** Not-a-number inputs *)

Lemma add_nan_l (x : float) : (nan + x)%float = nan.
Proof.
  apply Prim2SF_inj. rewrite add_spec.
  change (Prim2SF nan) with S754_nan. reflexivity.
Qed.

Lemma add_nan_r (x : float) : (x + nan)%float = nan.
Proof.
  apply Prim2SF_inj. rewrite add_spec.
  change (Prim2SF nan) with S754_nan.
  unfold SF64add, SFadd. destruct (Prim2SF x); reflexivity.
Qed.

Lemma SFleb_false_cases (x y : spec_float) :
  SFleb y x = false ->
  SFltb x y = true \/ x = S754_nan \/ y = S754_nan.
Proof.
  unfold SFltb, SFleb. sf_destruct x; sf_destruct y; simpl; auto;
    try discriminate; sf_cases; intros; subst; auto; try discriminate; lia.
Qed.

Lemma leb_false_cases (x y : float) :
  (y <=? x)%float = false ->
  (x <? y)%float = true \/ x = nan \/ y = nan.
Proof.
  rewrite ltb_spec, leb_spec. intros H.
  destruct (SFleb_false_cases _ _ H) as [Hlt | [Hx | Hy]]; auto.
  - right. left. apply Prim2SF_inj. now rewrite Hx.
  - right. right. apply Prim2SF_inj. now rewrite Hy.
Qed.

Section Further.

Context {L : NumericLib}.

Local Open Scope string_scope.
Local Open Scope list_scope.

(** X1: a risk score that is not a number passes neither threshold: when the
    average, the attendance or the completion is NaN (the value of an empty
    cell of a numeric column), [determine_risk_level] is [low], and so is
    the risk level of a record whose attendance or completion cell is
    NaN. *)
Theorem nan_is_low_risk :
  (forall avg_score attendance completion,
     avg_score = nan \/ attendance = nan \/ completion = nan ->
     determine_risk_level avg_score attendance completion = low) /\
  (forall row,
     col_attendance row = Some nan \/ col_completion_rate row = Some nan ->
     exists m, analyze_student row = Ok m /\ risk_level m = low).
Proof.
  assert (Hrisk : forall a t c, a = nan \/ t = nan \/ c = nan ->
                   determine_risk_level a t c = low).
  { intros a t c H. unfold determine_risk_level.
    assert (Hnan : ((100 - a) * 0.4 + (100 - t) * 0.3 + (100 - c) * 0.3)%float
                   = nan).
    { destruct H as [-> | [-> | ->]].
      - change ((100 - nan) * 0.4)%float with nan. now rewrite !add_nan_l.
      - change ((100 - nan) * 0.3)%float with nan.
        now rewrite add_nan_r, add_nan_l.
      - change ((100 - nan) * 0.3)%float with nan. now rewrite add_nan_r. }
    rewrite Hnan. reflexivity. }
  split; [ exact Hrisk | ].
  intros row H.
  destruct (analyze_student_run row) as (a & q & t & _ & _ & _ & Hm).
  rewrite Hm. eexists. split; [ reflexivity | ]. simpl.
  apply Hrisk. right. destruct H as [-> | ->]; simpl; auto.
Qed.

(** X16: the risk level is decided by the risk score alone, and the three
    levels leave no score out: [high] exactly when the score is at least
    40, [medium] exactly when it is at least 20 and below 40, [low] exactly
    when it is below 20 or not a number. *)
Theorem risk_level_by_score (avg_score attendance completion : float) :
  let risk := ((100 - avg_score) * 0.4 + (100 - attendance) * 0.3 +
               (100 - completion) * 0.3)%float in
  let level := determine_risk_level avg_score attendance completion in
  (level = high <-> (40 <=? risk)%float = true) /\
  (level = medium <->
   (20 <=? risk)%float = true /\ (risk <? 40)%float = true) /\
  (level = low <-> (risk <? 20)%float = true \/ risk = nan).
Proof.
  intros risk level. subst level. unfold determine_risk_level. fold risk.
  assert (H2040 : (20 <=? risk)%float = false ->
                  (40 <=? risk)%float = false).
  { intros H. destruct (leb_false_cases _ _ H) as [Hlt | [Hn | Hn]];
      [ | rewrite Hn; reflexivity | discriminate Hn ].
    apply ltb_leb_false. apply (ltb_leb_trans _ _ _ Hlt). reflexivity. }
  destruct (40 <=? risk)%float eqn:H40.
  - assert (H20 : (risk <? 20)%float = false).
    { destruct (risk <? 20)%float eqn:E; [ | reflexivity ].
      apply ltb_leb_false in E. apply H2040 in E. congruence. }
    assert (H40' : (risk <? 40)%float = false).
    { destruct (risk <? 40)%float eqn:E; [ | reflexivity ].
      apply ltb_leb_false in E. congruence. }
    assert (Hnn : risk <> nan).
    { intros Hn. rewrite Hn in H40. discriminate H40. }
    rewrite H20, H40'. repeat split; intros; try congruence;
      intuition congruence.
  - destruct (20 <=? risk)%float eqn:H20.
    + assert (Hlt : (risk <? 40)%float = true).
      { destruct (leb_false_cases _ _ H40) as [Hlt | [Hn | Hn]];
          [ assumption | | discriminate Hn ].
        rewrite Hn in H20. discriminate H20. }
      assert (H20' : (risk <? 20)%float = false).
      { destruct (risk <? 20)%float eqn:E; [ | reflexivity ].
        apply ltb_leb_false in E. congruence. }
      assert (Hnn : risk <> nan).
      { intros Hn. rewrite Hn in H20. discriminate H20. }
      rewrite Hlt, H20'. repeat split; intros; try congruence;
        intuition congruence.
    + repeat split; intros; try congruence; try intuition congruence.
      destruct (leb_false_cases _ _ H20) as [Hlt | [Hn | Hn]]; auto.
      discriminate Hn.
Qed.

(** ** Tokens of a series *)

Lemma split_nonempty (sep : ascii) (s : string) : split sep s <> [].
Proof.
  destruct s as [ | c s]; simpl; [ discriminate | ].
  destruct (Ascii.eqb c sep); [ discriminate | ].
  destruct (split sep s); discriminate.
Qed.

Lemma split_length (s : string) :
  List.length (split "," s) = S (count_commas s).
Proof.
  induction s as [ | c s IH]; simpl; [ reflexivity | ].
  destruct (Ascii.eqb c ","); simpl; [ now rewrite IH | ].
  destruct (split "," s) as [ | tok toks]; [ discriminate IH | exact IH ].
Qed.

Lemma split_trailing_comma (s : string) :
  split "," (s ++ ",")%string = split "," s ++ [""].
Proof.
  induction s as [ | c s IH]; simpl; [ reflexivity | ].
  destruct (Ascii.eqb c ","); simpl; [ now rewrite IH | ].
  rewrite IH. pose proof (split_nonempty "," s) as Hne.
  destruct (split "," s) as [ | tok toks]; [ congruence | reflexivity ].
Qed.

Lemma malformed_series (s : string) :
  token_fails s ->
  calculate_average_score (Some s) = Ok 0%float /\
  calculate_trend (Some s) = Ok stable.
Proof.
  intros Hfail. destruct (parse_scores_Raise s Hfail) as [msg Hmsg].
  unfold calculate_average_score, calculate_trend.
  destruct (isna (Some s) || is_empty_string (Some s));
    [ split; reflexivity | ].
  rewrite Hmsg. split; reflexivity.
Qed.

(** X2: the scores parsed from a series are one more than its commas, so a
    series without a comma, whatever it holds, has the trend [stable]. *)
Theorem comma_free_series_is_stable (s : string) :
  (forall scores, tokens_parse s scores ->
                  List.length scores = S (count_commas s)) /\
  (count_commas s = 0 -> calculate_trend (Some s) = Ok stable).
Proof.
  assert (Hlen : forall scores, tokens_parse s scores ->
                                List.length scores = S (count_commas s)).
  { intros scores H. unfold tokens_parse in H.
    apply Forall2_length in H. now rewrite <- H, split_length. }
  split; [ exact Hlen | ].
  intros Hcommas. unfold calculate_trend.
  destruct (isna (Some s) || is_empty_string (Some s)); [ reflexivity | ].
  destruct (parse_scores_cases (Some s)) as [[scores Hs] | [msg Hs]];
    rewrite Hs; [ | reflexivity ].
  apply parse_scores_Ok in Hs. apply Hlen in Hs.
  rewrite Hcommas in Hs. cbn [bind]. rewrite Hs. reflexivity.
Qed.

(** X3: where [float('')] raises [ValueError], as it does in Python, one
    empty or blank token spoils the whole series: the average is 0.0 and
    the trend [stable]; so it is for a series that ends or starts with a
    comma. *)
Theorem blank_token_spoils_series :
  py_float "" = None ->
  (forall s tok, In tok (split "," s) -> strip tok = "" ->
     calculate_average_score (Some s) = Ok 0%float /\
     calculate_trend (Some s) = Ok stable) /\
  (forall s,
     calculate_average_score (Some (s ++ ",")%string) = Ok 0%float /\
     calculate_trend (Some (s ++ ",")%string) = Ok stable) /\
  (forall s,
     calculate_average_score (Some ("," ++ s)%string) = Ok 0%float /\
     calculate_trend (Some ("," ++ s)%string) = Ok stable).
Proof.
  intros Hempty.
  assert (Hblank : forall s tok, In tok (split "," s) -> strip tok = "" ->
            calculate_average_score (Some s) = Ok 0%float /\
            calculate_trend (Some s) = Ok stable).
  { intros s tok Hin Htok. apply malformed_series.
    apply Exists_exists. exists tok. split; [ assumption | ].
    now rewrite Htok. }
  split; [ exact Hblank | ].
  split; intros s.
  - apply (Hblank _ ""); [ | reflexivity ].
    rewrite split_trailing_comma. apply in_or_app. right. now left.
  - apply (Hblank _ ""); [ | reflexivity ]. simpl. now left.
Qed.

(** X17: a trend other than [stable] is only given to a series of which at
    least two scores were parsed, and then the average of the same series
    is the rounded mean of those scores, not the 0.0 of a series that could
    not be read. *)
Theorem trend_needs_parsed_scores (scores_str : series) (t : TrendLabel) :
  calculate_trend scores_str = Ok t ->
  t <> stable ->
  exists s scores,
    scores_str = Some s /\ s <> "" /\ tokens_parse s scores /\
    2 <= List.length scores /\
    calculate_average_score scores_str = Ok (round2 (np_mean scores)).
Proof.
  unfold calculate_trend, calculate_average_score. intros H Ht.
  destruct scores_str as [s | ]; [ | simpl in H; congruence ].
  destruct (String.eqb_spec s "") as [-> | Hs]; [ simpl in H; congruence | ].
  rewrite (series_nonempty s Hs) in *.
  destruct (parse_scores_cases (Some s)) as [[scores Hp] | [msg Hp]];
    rewrite Hp in *; [ | simpl in H; congruence ].
  cbn [bind] in H. exists s, scores.
  split; [ reflexivity | ]. split; [ assumption | ].
  split; [ now apply parse_scores_Ok | ].
  split; [ | reflexivity ].
  destruct (Nat.ltb_spec (List.length scores) 2) as [Hlt | Hge];
    [ simpl in H; congruence | exact Hge ].
Qed.

(** ** Entries of the mapping *)

Lemma analyze_all_students_inv (self self' : StudentPerformanceAnalyzer)
    (d : dict) :
  analyze_all_students self = Ok (d, self') ->
  exists rows ms,
    data self = Some rows /\
    Forall2 (fun row m => analyze_student row = Ok m) rows ms /\
    map student_id ms = map col_student_id rows /\
    d = fold_left put ms [] /\
    self' = {| data := Some rows; metrics := d |}.
Proof.
  intros H. destruct (data self) as [rows | ] eqn:Hdata.
  - destruct (analyze_all_students_run self rows Hdata)
      as (ms & Hms & Hids & Hrun).
    rewrite Hrun in H. injection H as <- <-. exists rows, ms. auto.
  - unfold analyze_all_students in H. rewrite Hdata in H. discriminate.
Qed.

Lemma ensure_analyzed_after (self self' : StudentPerformanceAnalyzer)
    (d : dict) :
  analyze_all_students self = Ok (d, self') -> ensure_analyzed self' = Ok self'.
Proof.
  intros H.
  destruct (analyze_all_students_inv _ _ _ H)
    as (rows & ms & _ & Hms & _ & -> & ->).
  unfold ensure_analyzed, analyze_all_students. simpl.
  destruct (fold_left put ms []) eqn:Hd; simpl; [ | reflexivity ].
  rewrite (analyze_rows_fold rows ms Hms), Hd. reflexivity.
Qed.

Lemma keys_of_analysis (ms : list StudentMetrics) :
  keys (fold_left put ms []) = first_occurrences (map student_id ms).
Proof.
  rewrite keys_fold. simpl.
  erewrite filter_ext; [ apply filter_true | ]. reflexivity.
Qed.

Lemma filter_all {A : Type} (p : A -> bool) (l : list A) :
  (forall x, In x l -> p x = true) -> filter p l = l.
Proof.
  induction l as [ | x l IH]; intros H; simpl; [ reflexivity | ].
  rewrite (H x (or_introl eq_refl)). f_equal. apply IH.
  intros y Hy. apply H. now right.
Qed.

Lemma filter_length_lt {A : Type} (p : A -> bool) (l : list A) (x : A) :
  In x l -> p x = false -> List.length (filter p l) < List.length l.
Proof.
  induction l as [ | y l IH]; intros Hin Hp; [ destruct Hin | ].
  simpl. pose proof (filter_length_le p l) as Hle.
  destruct Hin as [-> | Hin].
  - rewrite Hp. lia.
  - specialize (IH Hin Hp). destruct (p y); simpl; lia.
Qed.

Lemma first_occurrences_In (ids : list string) (k : string) :
  In k (first_occurrences ids) <-> In k ids.
Proof.
  induction ids as [ | id ids IH]; simpl; [ reflexivity | ].
  rewrite filter_In, IH. destruct (String.eqb_spec k id) as [-> | Hk]; simpl.
  - intuition.
  - intuition congruence.
Qed.

Lemma first_occurrences_length (ids : list string) :
  List.length (first_occurrences ids) <= List.length ids.
Proof.
  induction ids as [ | id ids IH]; simpl; [ lia | ].
  pose proof (filter_length_le (fun k => negb (String.eqb k id))
                               (first_occurrences ids)). lia.
Qed.

Lemma first_occurrences_NoDup (ids : list string) :
  NoDup ids -> first_occurrences ids = ids.
Proof.
  induction 1 as [ | id ids Hid _ IH]; simpl; [ reflexivity | ].
  rewrite IH. f_equal. apply filter_all. intros k Hk.
  destruct (String.eqb_spec k id); [ congruence | reflexivity ].
Qed.

Lemma first_occurrences_full (ids : list string) :
  List.length (first_occurrences ids) = List.length ids -> NoDup ids.
Proof.
  induction ids as [ | id ids IH]; simpl; intros H; [ constructor | ].
  pose proof (first_occurrences_length ids) as Hle.
  pose proof (filter_length_le (fun k => negb (String.eqb k id))
                               (first_occurrences ids)) as Hfl.
  assert (Hnd : NoDup ids) by (apply IH; lia).
  constructor; [ | assumption ].
  intros Hin. apply first_occurrences_In in Hin.
  apply (filter_length_lt (fun k => negb (String.eqb k id))) in Hin;
    [ lia | now rewrite String.eqb_refl ].
Qed.

Lemma dict_set_absent (d : dict) (k : string) (v : StudentMetrics) :
  mem (keys d) k = false -> dict_set d k v = d ++ [(k, v)].
Proof.
  unfold mem, keys. induction d as [ | [k0 v0] d IH]; simpl; intros H;
    [ reflexivity | ].
  apply orb_false_elim in H. destruct H as [Hk Hd].
  rewrite String.eqb_sym, Hk. f_equal. now apply IH.
Qed.

Lemma fold_put_distinct (ms : list StudentMetrics) :
  NoDup (map student_id ms) ->
  forall acc,
    (forall m, In m ms -> mem (keys acc) (student_id m) = false) ->
    fold_left put ms acc = acc ++ map entry ms.
Proof.
  induction ms as [ | m ms IH]; intros Hnd acc Hacc; simpl.
  - now rewrite app_nil_r.
  - inversion Hnd as [ | id ids Hid Hnd']; subst.
    unfold put at 2. rewrite dict_set_absent by (apply Hacc; now left).
    rewrite IH; [ now rewrite <- app_assoc | assumption | ].
    intros m' Hm'. unfold keys. rewrite map_app. simpl.
    fold (keys acc). rewrite mem_app, (Hacc m' (or_intror Hm')). simpl.
    destruct (String.eqb_spec (student_id m') (student_id m)) as [Heq | ];
      [ | reflexivity ].
    exfalso. apply Hid. rewrite <- Heq. now apply in_map.
Qed.

Lemma coherent_put (d : dict) (m : StudentMetrics) :
  coherent d -> coherent (put d m).
Proof.
  unfold coherent, put. induction 1 as [ | [k v] d Hkv Hd IH]; simpl.
  - repeat constructor.
  - destruct (String.eqb_spec k (student_id m)) as [-> | _];
      constructor; auto.
Qed.

Lemma coherent_fold (ms : list StudentMetrics) :
  forall acc, coherent acc -> coherent (fold_left put ms acc).
Proof.
  induction ms as [ | m ms IH]; intros acc Hacc; simpl; [ assumption | ].
  apply IH. now apply coherent_put.
Qed.

Lemma dict_get_In (d : dict) (k : string) (m : StudentMetrics) :
  NoDup (keys d) -> (In (k, m) d <-> dict_get d k = Some m).
Proof.
  unfold keys. induction d as [ | [k0 v0] d IH]; simpl; intros Hnd.
  - split; [ intros [] | discriminate ].
  - inversion Hnd as [ | k' ks Hk0 Hnd']; subst. specialize (IH Hnd').
    destruct (String.eqb_spec k0 k) as [-> | Hk].
    + split.
      * intros [H | H]; [ congruence | ].
        exfalso. apply Hk0. apply (in_map fst) in H. exact H.
      * intros H. injection H as ->. now left.
    + rewrite <- IH. split; [ intros [H | H]; [ congruence | exact H ] | ].
      intros H. now right.
Qed.

Lemma dict_get_None (d : dict) (k : string) :
  dict_get d k = None <-> ~ In k (keys d).
Proof.
  unfold keys. induction d as [ | [k0 v0] d IH]; simpl; [ tauto | ].
  destruct (String.eqb_spec k0 k) as [-> | Hk].
  - split; [ discriminate | intros H; exfalso; apply H; now left ].
  - rewrite IH. tauto.
Qed.

(** The mapping of an analysis: its keys are distinct and every entry is a
    metrics object under its own identifier. *)
Lemma analysis_is_well_formed (self self' : StudentPerformanceAnalyzer)
    (d : dict) :
  analyze_all_students self = Ok (d, self') ->
  NoDup (keys d) /\ coherent d /\ metrics self' = d.
Proof.
  intros H.
  destruct (analyze_all_students_inv _ _ _ H)
    as (rows & ms & _ & _ & _ & -> & ->).
  split; [ apply NoDup_keys_fold; constructor | ].
  split; [ apply coherent_fold; constructor | reflexivity ].
Qed.

(** X4: the mapping of an analysis has one entry for each distinct
    identifier of the table, so never more entries than records; it has as
    many entries as records exactly when the identifiers are distinct, and
    then its keys are the identifiers and its values the metrics of the
    records, both in the order of the table. *)
Theorem distinct_ids_keep_every_record
    (self self' : StudentPerformanceAnalyzer) (rows : list Row) (d : dict) :
  data self = Some rows ->
  analyze_all_students self = Ok (d, self') ->
  let ids := map col_student_id rows in
  List.length d = List.length (first_occurrences ids) /\
  List.length d <= List.length rows /\
  (forall id, In id (keys d) <-> In id ids) /\
  (List.length d = List.length rows <-> NoDup ids) /\
  (NoDup ids ->
   keys d = ids /\
   Forall2 (fun row m => analyze_student row = Ok m) rows (values d)).
Proof.
  intros Hdata H ids.
  destruct (analyze_all_students_inv _ _ _ H)
    as (rows' & ms & Hdata' & Hms & Hids & -> & _).
  assert (rows' = rows) by congruence. subst rows'. clear Hdata'.
  assert (Hkeys : keys (fold_left put ms []) = first_occurrences ids).
  { rewrite keys_of_analysis. unfold ids. now rewrite Hids. }
  assert (Hlen : List.length (fold_left put ms []) =
                 List.length (first_occurrences ids)).
  { rewrite <- Hkeys. unfold keys. now rewrite length_map. }
  assert (Hrows : List.length ids = List.length rows) by
    (unfold ids; apply length_map).
  pose proof (first_occurrences_length ids) as Hle.
  split; [ exact Hlen | ]. split; [ lia | ].
  split; [ intros id; rewrite Hkeys; apply first_occurrences_In | ].
  split.
  { rewrite Hlen, <- Hrows. split.
    - apply first_occurrences_full.
    - intros Hnd. now rewrite first_occurrences_NoDup. }
  intros Hnd. split.
  { rewrite Hkeys. now apply first_occurrences_NoDup. }
  rewrite fold_put_distinct.
  - simpl. unfold values, entry. rewrite map_map. simpl. now rewrite map_id.
  - rewrite Hids. exact Hnd.
  - reflexivity.
Qed.

(** X5: in the mapping of an analysis no key comes twice, every entry holds
    the metrics of the student named by its key, and an entry is in the
    mapping exactly when a lookup of its key returns it; so every metrics
    object of the mapping is found again under its own [student_id]. *)
Theorem mapping_lookup_round_trip
    (self self' : StudentPerformanceAnalyzer) (d : dict) :
  analyze_all_students self = Ok (d, self') ->
  NoDup (keys d) /\
  (forall k m, In (k, m) d -> student_id m = k) /\
  (forall k m, In (k, m) d <-> dict_get d k = Some m) /\
  (forall m, In m (values d) -> dict_get d (student_id m) = Some m).
Proof.
  intros H. destruct (analysis_is_well_formed _ _ _ H) as (Hnd & Hco & _).
  assert (Hid : forall k m, In (k, m) d -> student_id m = k).
  { intros k m Hin. unfold coherent in Hco. rewrite Forall_forall in Hco.
    apply (Hco (k, m) Hin). }
  split; [ exact Hnd | ]. split; [ exact Hid | ].
  split; [ intros k m; now apply dict_get_In | ].
  intros m Hin. unfold values in Hin. apply in_map_iff in Hin.
  destruct Hin as [[k m'] [Heq Hin]]. simpl in Heq. subst m'.
  rewrite (Hid k m Hin). now apply dict_get_In.
Qed.

(** ** Statistics and lists of students *)

Lemma count_risk_total (ms : list StudentMetrics) :
  count_risk low ms + count_risk medium ms + count_risk high ms =
    List.length ms.
Proof.
  unfold count_risk. induction ms as [ | m ms IH]; simpl; [ reflexivity | ].
  destruct (risk_level m); simpl; lia.
Qed.

Lemma count_trend_total (ms : list StudentMetrics) :
  count_trend improving ms + count_trend stable ms + count_trend declining ms =
    List.length ms.
Proof.
  unfold count_trend. induction ms as [ | m ms IH]; simpl; [ reflexivity | ].
  destruct (trend m); simpl; lia.
Qed.

Lemma get_statistics_inv (self self' : StudentPerformanceAnalyzer)
    (stats : CohortStatistics) :
  get_statistics self = Ok (stats, self') ->
  ensure_analyzed self = Ok self' /\
  total_students stats = List.length (metrics self') /\
  risk_distribution stats =
    {| count_low := count_risk low (values (metrics self'));
       count_medium := count_risk medium (values (metrics self'));
       count_high := count_risk high (values (metrics self')) |} /\
  trend_distribution stats =
    {| count_improving := count_trend improving (values (metrics self'));
       count_stable := count_trend stable (values (metrics self'));
       count_declining := count_trend declining (values (metrics self')) |}.
Proof.
  unfold get_statistics.
  destruct (ensure_analyzed self) as [s | e]; cbn [bind]; [ | discriminate ].
  rewrite count_buckets_spec. cbn [fst snd count_high count_medium].
  destruct (dict_is_empty (metrics s)); cbn [negb];
    [ | unfold int_truediv; destruct (Nat.eqb _ 0) ]; cbn [bind];
    intros H; try discriminate H; injection H as <- <-; auto.
Qed.

Lemma get_at_risk_students_inv (self self' : StudentPerformanceAnalyzer)
    (level : RiskLevel) (l : list StudentMetrics) :
  get_at_risk_students self level = Ok (l, self') ->
  ensure_analyzed self = Ok self' /\
  l = filter (fun m => RiskLevel_eqb (risk_level m) level)
             (values (metrics self')).
Proof.
  unfold get_at_risk_students.
  destruct (ensure_analyzed self) as [s | e]; cbn [bind]; [ | discriminate ].
  intros H. injection H as <- <-. auto.
Qed.

Lemma get_at_risk_students_run (self self' : StudentPerformanceAnalyzer)
    (level : RiskLevel) :
  ensure_analyzed self = Ok self' ->
  get_at_risk_students self level =
    Ok (filter (fun m => RiskLevel_eqb (risk_level m) level)
               (values (metrics self')), self').
Proof. intros H. unfold get_at_risk_students. now rewrite H. Qed.

(** X6: in the statistics that [get_statistics] returns the three risk
    counts add up to the total number of students, and so do the three
    trend counts; the total is the size of the mapping. *)
Theorem statistics_buckets_sum_to_total
    (self self' : StudentPerformanceAnalyzer) (stats : CohortStatistics) :
  get_statistics self = Ok (stats, self') ->
  total_students stats = List.length (metrics self') /\
  count_low (risk_distribution stats) +
  count_medium (risk_distribution stats) +
  count_high (risk_distribution stats) = total_students stats /\
  count_improving (trend_distribution stats) +
  count_stable (trend_distribution stats) +
  count_declining (trend_distribution stats) = total_students stats.
Proof.
  intros H. destruct (get_statistics_inv _ _ _ H) as (_ & Ht & Hr & Htr).
  rewrite Hr, Htr, Ht. simpl.
  rewrite count_risk_total, count_trend_total.
  unfold values. rewrite length_map. auto.
Qed.

Lemma ensure_analyzed_idem (self self' : StudentPerformanceAnalyzer) :
  ensure_analyzed self = Ok self' -> ensure_analyzed self' = Ok self'.
Proof.
  unfold ensure_analyzed at 1.
  destruct (dict_is_empty (metrics self)) eqn:Hempty.
  - destruct (analyze_all_students self) as [[d s] | e] eqn:H;
      cbn [bind snd]; intros Heq; [ | discriminate Heq ].
    injection Heq as <-. apply (ensure_analyzed_after _ _ _ H).
  - intros Heq. injection Heq as <-. unfold ensure_analyzed.
    now rewrite Hempty.
Qed.

(** X7: the lists of [get_at_risk_students] agree with the statistics,
    whether they are asked for instead of [get_statistics] or after it: for
    each level the list has as many students as the level's count, the
    high-risk and the medium-risk lists together as many as the numerator
    of the at-risk percentage, and the three lists together as many as the
    total; all these calls leave the analyzer in the same state. *)
Theorem at_risk_lists_match_statistics
    (self self' : StudentPerformanceAnalyzer) (stats : CohortStatistics) :
  get_statistics self = Ok (stats, self') ->
  exists at_low at_medium at_high,
    (forall s, s = self \/ s = self' ->
       get_at_risk_students s low = Ok (at_low, self') /\
       get_at_risk_students s medium = Ok (at_medium, self') /\
       get_at_risk_students s high = Ok (at_high, self')) /\
    List.length at_low = count_low (risk_distribution stats) /\
    List.length at_medium = count_medium (risk_distribution stats) /\
    List.length at_high = count_high (risk_distribution stats) /\
    List.length (at_high ++ at_medium) =
      count_high (risk_distribution stats) +
      count_medium (risk_distribution stats) /\
    List.length at_low + List.length at_medium + List.length at_high =
      total_students stats.
Proof.
  intros H. destruct (get_statistics_inv _ _ _ H) as (He & Ht & Hr & _).
  pose proof (ensure_analyzed_idem _ _ He) as He'.
  do 3 eexists. split.
  { intros s [-> | ->];
      repeat split; apply get_at_risk_students_run; assumption. }
  rewrite Hr, Ht, length_app. simpl.
  fold (count_risk low (values (metrics self'))).
  fold (count_risk medium (values (metrics self'))).
  fold (count_risk high (values (metrics self'))).
  repeat split; try reflexivity.
  rewrite count_risk_total. unfold values. now rewrite length_map.
Qed.

(** ** Loading and analysing *)

Lemma ensure_analyzed_nonempty (self : StudentPerformanceAnalyzer) :
  metrics self <> [] -> ensure_analyzed self = Ok self.
Proof.
  intros H. unfold ensure_analyzed.
  destruct (metrics self); [ congruence | reflexivity ].
Qed.

Lemma get_statistics_same_metrics (self other : StudentPerformanceAnalyzer)
    (stats : CohortStatistics) :
  ensure_analyzed self = Ok self ->
  ensure_analyzed other = Ok other ->
  metrics other = metrics self ->
  get_statistics self = Ok (stats, self) ->
  get_statistics other = Ok (stats, other).
Proof.
  unfold get_statistics. intros -> -> Hm. cbn [bind]. rewrite Hm.
  destruct (dict_is_empty (metrics self)); cbn [negb];
    [ | unfold int_truediv; destruct (Nat.eqb _ 0) ]; cbn [bind];
    intros H; try discriminate H; injection H as <-; reflexivity.
Qed.

Lemma get_statistics_total (self self' : StudentPerformanceAnalyzer) :
  ensure_analyzed self = Ok self' ->
  exists stats, get_statistics self = Ok (stats, self').
Proof.
  intros H. unfold get_statistics. rewrite H. cbn [bind].
  destruct (metrics self') as [ | kv d] eqn:Hm; cbn [dict_is_empty negb].
  - cbn [bind]. eauto.
  - unfold int_truediv. cbn [List.length Nat.eqb bind]. eauto.
Qed.

(** X8: [load_data_from_dataframe] keeps the metrics of the analyzer, and
    the lazy analysis of [get_at_risk_students] and [get_statistics] runs
    only on an empty mapping.  So on an analyzer that has metrics, loading
    another table changes neither the lists of students nor the statistics
    nor the recommendations: until [analyze_all_students] is called they
    are those of the former table. *)
Theorem loading_keeps_former_results (self : StudentPerformanceAnalyzer)
    (df : list Row) :
  metrics self <> [] ->
  let reloaded := snd (load_data_from_dataframe self df) in
  data reloaded = Some df /\
  metrics reloaded = metrics self /\
  (forall level,
     get_at_risk_students reloaded level =
       Ok (filter (fun m => RiskLevel_eqb (risk_level m) level)
                  (values (metrics self)), reloaded)) /\
  (exists stats,
     get_statistics self = Ok (stats, self) /\
     get_statistics reloaded = Ok (stats, reloaded)) /\
  (forall id,
     generate_recommendations reloaded id = generate_recommendations self id).
Proof.
  intros Hm reloaded.
  assert (Hself : ensure_analyzed self = Ok self) by
    now apply ensure_analyzed_nonempty.
  assert (Hre : ensure_analyzed reloaded = Ok reloaded) by
    now apply ensure_analyzed_nonempty.
  split; [ reflexivity | ]. split; [ reflexivity | ].
  split; [ intros level; apply (get_at_risk_students_run _ _ _ Hre) | ].
  split; [ | reflexivity ].
  destruct (get_statistics_total self self Hself) as [stats Hstats].
  exists stats. split; [ exact Hstats | ].
  now apply (get_statistics_same_metrics self reloaded).
Qed.

(** X9: on an analyzer without metrics, [get_statistics] and
    [get_at_risk_students] give what they give after an explicit
    [analyze_all_students], and leave the analyzer as that call leaves
    it. *)
Theorem lazy_analysis_is_analysis
    (self self' : StudentPerformanceAnalyzer) (d : dict) :
  metrics self = [] ->
  analyze_all_students self = Ok (d, self') ->
  get_statistics self = get_statistics self' /\
  (exists stats, get_statistics self = Ok (stats, self')) /\
  (forall level,
     get_at_risk_students self level = get_at_risk_students self' level /\
     get_at_risk_students self level =
       Ok (filter (fun m => RiskLevel_eqb (risk_level m) level) (values d),
           self')).
Proof.
  intros Hnil H.
  assert (He : ensure_analyzed self = Ok self').
  { unfold ensure_analyzed. rewrite Hnil, H. reflexivity. }
  pose proof (ensure_analyzed_after _ _ _ H) as He'.
  destruct (analysis_is_well_formed _ _ _ H) as (_ & _ & Hm).
  split.
  { unfold get_statistics. now rewrite He, He'. }
  split; [ now apply get_statistics_total | ].
  intros level.
  rewrite (get_at_risk_students_run _ _ level He),
          (get_at_risk_students_run _ _ level He'), Hm.
  split; reflexivity.
Qed.

(** X10: in [get_statistics] the total counts each identifier of the table
    once: on a loaded analyzer without metrics it is the number of distinct
    identifiers, at most the number of records. *)
Theorem total_counts_distinct_ids
    (self self' : StudentPerformanceAnalyzer) (rows : list Row)
    (stats : CohortStatistics) :
  data self = Some rows ->
  metrics self = [] ->
  get_statistics self = Ok (stats, self') ->
  total_students stats =
    List.length (first_occurrences (map col_student_id rows)) /\
  total_students stats <= List.length rows.
Proof.
  intros Hdata Hnil H.
  destruct (get_statistics_inv _ _ _ H) as (He & Ht & _).
  destruct (analyze_all_students_run self rows Hdata)
    as (ms & _ & Hids & Hrun).
  unfold ensure_analyzed in He. rewrite Hnil, Hrun in He.
  simpl in He. injection He as <-. simpl in Ht.
  assert (Hlen : total_students stats =
                 List.length (first_occurrences (map col_student_id rows))).
  { rewrite Ht, <- Hids, <- keys_of_analysis. unfold keys.
    now rewrite length_map. }
  split; [ exact Hlen | ].
  rewrite Hlen.
  pose proof (first_occurrences_length (map col_student_id rows)) as Hle.
  now rewrite length_map in Hle.
Qed.

(** ** Recommendations *)

Lemma In_when (cond : bool) (msg x : string) :
  In x (when cond msg) <-> cond = true /\ x = msg.
Proof.
  unfold when. destruct cond; simpl; intuition congruence.
Qed.

Lemma In_issues (m : StudentMetrics) (x : string) :
  In x (issues m) <->
  ((average_score m <? 60)%float = true /\ x = msg_tutoring) \/
  ((attendance_rate m <? 80)%float = true /\ x = msg_attendance) \/
  ((assignment_completion m <? 90)%float = true /\ x = msg_completion) \/
  (trend m = declining /\ x = msg_declining) \/
  (risk_level m = high /\ x = msg_high_priority).
Proof.
  unfold issues. rewrite !in_app_iff, !In_when.
  assert (Ht : TrendLabel_eqb (trend m) declining = true <->
               trend m = declining) by
    (destruct (trend m); simpl; intuition congruence).
  assert (Hr : RiskLevel_eqb (risk_level m) high = true <->
               risk_level m = high) by
    (destruct (risk_level m); simpl; intuition congruence).
  rewrite Ht, Hr. tauto.
Qed.

Lemma issues_NoDup (m : StudentMetrics) : NoDup (issues m).
Proof.
  unfold issues, when.
  destruct (average_score m <? 60)%float, (attendance_rate m <? 80)%float,
    (assignment_completion m <? 90)%float,
    (TrendLabel_eqb (trend m) declining),
    (RiskLevel_eqb (risk_level m) high); simpl;
    repeat (constructor; [ simpl; intuition discriminate | ]); constructor.
Qed.

Lemma issues_length (m : StudentMetrics) : List.length (issues m) <= 5.
Proof.
  unfold issues, when.
  destruct (average_score m <? 60)%float, (attendance_rate m <? 80)%float,
    (assignment_completion m <? 90)%float,
    (TrendLabel_eqb (trend m) declining),
    (RiskLevel_eqb (risk_level m) high); simpl; lia.
Qed.

Lemma issues_high_last (m : StudentMetrics) :
  risk_level m = high -> last (issues m) "" = msg_high_priority.
Proof.
  intros H. unfold issues. rewrite H. simpl RiskLevel_eqb. unfold when at 5.
  rewrite !app_assoc. apply last_last.
Qed.

Lemma recommendations_found (self : StudentPerformanceAnalyzer) (id : string)
    (m : StudentMetrics) :
  dict_get (metrics self) id = Some m ->
  (forall x, In x (generate_recommendations self id) <->
             In x (issues m) \/ (issues m = [] /\ x = msg_performing_well)) /\
  NoDup (generate_recommendations self id) /\
  List.length (generate_recommendations self id) <= 5 /\
  (issues m <> [] -> generate_recommendations self id = issues m).
Proof.
  intros Hm. rewrite (generate_recommendations_issues self id m Hm).
  pose proof (issues_NoDup m) as Hnd. pose proof (issues_length m) as Hlen.
  destruct (issues m) as [ | r rs]; simpl nonempty; cbv iota.
  - split; [ intros x; simpl; intuition | ].
    split; [ repeat constructor; intros [] | ]. split; [ simpl; lia | ].
    congruence.
  - split; [ intros x; intuition discriminate | auto ].
Qed.

(** X11: [generate_recommendations] answers with the single not-found
    message exactly for the identifiers that are not keys of the mapping.
    It never runs the analysis: on an analyzer that has only loaded a table
    every identifier is not found; after [analyze_all_students] the
    identifiers that are found are those of the table. *)
Theorem not_found_only_for_absent_ids (self : StudentPerformanceAnalyzer)
    (id : string) :
  (generate_recommendations self id = [msg_not_found] <->
   dict_get (metrics self) id = None) /\
  (forall df,
     generate_recommendations (snd (load_data_from_dataframe init df)) id =
       [msg_not_found]) /\
  (forall rows d self',
     data self = Some rows ->
     analyze_all_students self = Ok (d, self') ->
     (In id (map col_student_id rows) <->
      generate_recommendations self' id <> [msg_not_found])).
Proof.
  assert (Hiff : forall s, generate_recommendations s id = [msg_not_found] <->
                           dict_get (metrics s) id = None).
  { intros s. split.
    - intros H. destruct (dict_get (metrics s) id) as [m | ] eqn:Hm;
        [ | reflexivity ].
      destruct (recommendations_found s id m Hm) as (Hin & _).
      assert (Hnf : In msg_not_found (generate_recommendations s id)) by
        (rewrite H; now left).
      apply Hin in Hnf. rewrite In_issues in Hnf.
      exfalso. intuition discriminate.
    - intros H. unfold generate_recommendations. now rewrite H. }
  split; [ apply Hiff | ]. split; [ reflexivity | ].
  intros rows d self' Hdata H.
  destruct (analyze_all_students_inv _ _ _ H)
    as (rows' & ms & Hdata' & _ & Hids & Hd & Hself').
  assert (rows' = rows) by congruence. subst rows'.
  rewrite Hiff, dict_get_None. subst self'. simpl. subst d.
  rewrite keys_of_analysis, first_occurrences_In, Hids.
  split; [ tauto | ].
  intros Hnn. destruct (in_dec string_dec id (map col_student_id rows));
    [ assumption | contradiction ].
Qed.

(** X12: for a student of the mapping each of the five messages is returned
    exactly when its own condition holds, no message is returned twice and
    at most five are returned; for a high-risk student the high-priority
    message comes last. *)
Theorem each_recommendation_has_its_condition
    (self : StudentPerformanceAnalyzer) (id : string) (m : StudentMetrics) :
  dict_get (metrics self) id = Some m ->
  let recs := generate_recommendations self id in
  (In msg_tutoring recs <-> (average_score m <? 60)%float = true) /\
  (In msg_attendance recs <-> (attendance_rate m <? 80)%float = true) /\
  (In msg_completion recs <-> (assignment_completion m <? 90)%float = true) /\
  (In msg_declining recs <-> trend m = declining) /\
  (In msg_high_priority recs <-> risk_level m = high) /\
  NoDup recs /\
  List.length recs <= 5 /\
  (risk_level m = high -> last recs "" = msg_high_priority).
Proof.
  intros Hm recs.
  destruct (recommendations_found self id m Hm) as (Hin & Hnd & Hlen & Hiss).
  fold recs in Hin, Hnd, Hlen, Hiss.
  do 5 (split; [ rewrite Hin, In_issues; intuition discriminate | ]).
  split; [ exact Hnd | ]. split; [ exact Hlen | ].
  intros Hhigh. rewrite Hiss; [ now apply issues_high_last | ].
  intros Hnil.
  assert (Hp : In msg_high_priority (issues m)) by
    (apply In_issues; intuition).
  rewrite Hnil in Hp. destruct Hp.
Qed.

(** X13: after an analysis, every student in the high-risk list of
    [get_at_risk_students] is found by [generate_recommendations] under its
    [student_id], and its recommendations end with the high-priority
    message and do not hold the positive one. *)
Theorem high_risk_students_get_priority
    (self self' self'' : StudentPerformanceAnalyzer) (d : dict)
    (at_high : list StudentMetrics) :
  analyze_all_students self = Ok (d, self') ->
  get_at_risk_students self' high = Ok (at_high, self'') ->
  forall m, In m at_high ->
    let recs := generate_recommendations self' (student_id m) in
    dict_get (metrics self') (student_id m) = Some m /\
    last recs "" = msg_high_priority /\
    In msg_high_priority recs /\
    ~ In msg_performing_well recs.
Proof.
  intros H Hlist m Hin recs.
  destruct (analysis_is_well_formed _ _ _ H) as (Hnd & Hco & Hmetrics).
  pose proof (ensure_analyzed_after _ _ _ H) as He.
  destruct (get_at_risk_students_inv _ _ _ _ Hlist) as (He' & ->).
  assert (self'' = self') by congruence. subst self''.
  apply filter_In in Hin. destruct Hin as [Hin Hhigh].
  assert (Hrisk : risk_level m = high) by
    (destruct (risk_level m); simpl in Hhigh; congruence).
  assert (Hget : dict_get (metrics self') (student_id m) = Some m).
  { rewrite Hmetrics in *. unfold values in Hin. apply in_map_iff in Hin.
    destruct Hin as [[k m'] [Heq Hkm]]. simpl in Heq. subst m'.
    unfold coherent in Hco. rewrite Forall_forall in Hco.
    pose proof (Hco (k, m) Hkm) as Hk. simpl in Hk. rewrite Hk.
    now apply dict_get_In. }
  destruct (recommendations_found self' (student_id m) m Hget)
    as (Hrec & _ & _ & Hiss).
  fold recs in Hrec, Hiss.
  assert (Hp : In msg_high_priority (issues m)) by
    (apply In_issues; intuition).
  assert (Hne : issues m <> []) by (intros Hnil; now rewrite Hnil in Hp).
  split; [ exact Hget | ].
  split; [ rewrite (Hiss Hne); now apply issues_high_last | ].
  split; [ apply Hrec; now left | ].
  rewrite Hrec, In_issues. intuition discriminate.
Qed.

End Further.

(** * Properties of the report generator *)

Lemma length_string_app (a b : string) :
  String.length (a ++ b) = String.length a + String.length b.
Proof. induction a as [ | c a IH]; simpl; [ reflexivity | now rewrite IH ]. Qed.

Section Report.

Context {L : NumericLib}.
Variable str_float : float -> string.

Local Open Scope string_scope.
Local Open Scope list_scope.

(** The recommendation on the at-risk percentage is longer than each of the
    two positive ones, whatever the percentage is printed as. *)
Lemma msg_at_risk_not_positive (x : float) :
  msg_at_risk str_float x <> msg_good /\
  msg_at_risk str_float x <> msg_peer_tutoring.
Proof.
  split; intros H; apply (f_equal String.length) in H;
    unfold msg_at_risk in H; rewrite length_string_app in H;
    simpl in H; lia.
Qed.

Lemma generate_general_recommendations_issues (stats : CohortStatistics) :
  generate_general_recommendations str_float stats =
    if nonempty (general_issues str_float stats)
    then general_issues str_float stats
    else [msg_good; msg_peer_tutoring].
Proof.
  unfold generate_general_recommendations, general_issues.
  destruct (30 <? at_risk_percentage stats)%float,
    (average_attendance stats <? 80)%float,
    (count_improving (trend_distribution stats) <?
     count_declining (trend_distribution stats))%nat,
    (average_score_mean stats <? 70)%float; reflexivity.
Qed.

Lemma In_general_issues (stats : CohortStatistics) (x : string) :
  In x (general_issues str_float stats) <->
  ((30 <? at_risk_percentage stats)%float = true /\
   x = msg_at_risk str_float (at_risk_percentage stats)) \/
  ((average_attendance stats <? 80)%float = true /\ x = msg_low_attendance) \/
  (count_improving (trend_distribution stats) <
   count_declining (trend_distribution stats) /\ x = msg_more_declining) \/
  ((average_score_mean stats <? 70)%float = true /\ x = msg_low_score).
Proof.
  unfold general_issues. rewrite !in_app_iff, !In_when, Nat.ltb_lt. tauto.
Qed.

(** X14: [generate_general_recommendations] tests four conditions in a fixed
    order (at-risk percentage > 30, mean attendance < 80, more declining
    than improving students, mean score < 70) and returns the messages of
    those that hold; when none holds it returns the two positive messages
    instead.  So it returns between one and four messages, and the positive
    ones, always together, exactly when no condition holds. *)
Theorem generate_general_recommendations_spec (stats : CohortStatistics) :
  let recs := generate_general_recommendations str_float stats in
  let issues := general_issues str_float stats in
  (issues <> [] -> recs = issues) /\
  (issues = [] -> recs = [msg_good; msg_peer_tutoring]) /\
  1 <= List.length recs <= 4 /\
  (In msg_good recs <-> In msg_peer_tutoring recs) /\
  (In msg_good recs <->
   (30 <? at_risk_percentage stats)%float = false /\
   (average_attendance stats <? 80)%float = false /\
   count_declining (trend_distribution stats) <=
     count_improving (trend_distribution stats) /\
   (average_score_mean stats <? 70)%float = false).
Proof.
  intros recs issues. subst recs.
  rewrite generate_general_recommendations_issues. fold issues.
  assert (Hnil : issues = [] <->
            (30 <? at_risk_percentage stats)%float = false /\
            (average_attendance stats <? 80)%float = false /\
            count_declining (trend_distribution stats) <=
              count_improving (trend_distribution stats) /\
            (average_score_mean stats <? 70)%float = false).
  { subst issues. unfold general_issues, when.
    destruct (Nat.ltb_spec (count_improving (trend_distribution stats))
                           (count_declining (trend_distribution stats)));
      destruct (30 <? at_risk_percentage stats)%float,
        (average_attendance stats <? 80)%float,
        (average_score_mean stats <? 70)%float; simpl;
      split; intros H'; try discriminate H'; try reflexivity;
      try (repeat split; (reflexivity || lia));
      try (destruct H' as (? & ? & ? & ?); (congruence || lia)). }
  assert (Hlen : List.length issues <= 4).
  { subst issues. unfold general_issues, when.
    destruct (30 <? at_risk_percentage stats)%float,
      (average_attendance stats <? 80)%float,
      (count_improving (trend_distribution stats) <?
       count_declining (trend_distribution stats))%nat,
      (average_score_mean stats <? 70)%float; simpl; lia. }
  assert (Hpos : ~ In msg_good issues /\ ~ In msg_peer_tutoring issues).
  { subst issues. rewrite !In_general_issues.
    destruct (msg_at_risk_not_positive (at_risk_percentage stats)).
    split; intros H'; intuition (discriminate || congruence). }
  rewrite <- Hnil. destruct Hpos as [Hgood Hpeer].
  destruct issues as [ | r rs]; simpl nonempty; cbv iota.
  - simpl. repeat split; try congruence; try lia; auto.
  - simpl List.length in *. repeat split; try congruence; try lia;
      try contradiction; discriminate.
Qed.

(** X15: for an empty cohort the statistics are all 0, and 0 is below both
    the attendance and the score threshold: on a loaded empty table
    [generate_general_recommendations] of [get_statistics] returns the
    low-attendance and the low-score messages, not the positive ones. *)
Theorem empty_cohort_general_recommendations
    (self : StudentPerformanceAnalyzer) :
  data self = Some [] ->
  metrics self = [] ->
  exists stats self',
    get_statistics self = Ok (stats, self') /\
    total_students stats = 0 /\
    generate_general_recommendations str_float stats =
      [msg_low_attendance; msg_low_score].
Proof.
  intros Hdata Hnil. unfold get_statistics.
  rewrite (ensure_analyzed_empty self Hdata Hnil). simpl.
  eexists. eexists. split; [ reflexivity | ]. split; reflexivity.
Qed.

End Report.

(** * Runs of the further properties *)

Section FurtherRuns.

Local Existing Instance reference_lib.

Local Open Scope string_scope.
Local Open Scope list_scope.

(** A failing record with an empty attendance cell is at low risk. *)
Lemma nan_is_low_risk_witness :
  determine_risk_level 10 nan 10 = low /\
  exists m, analyze_student Sample.absent_minded = Ok m /\ risk_level m = low.
Proof.
  split.
  - apply (proj1 nan_is_low_risk). right. left. reflexivity.
  - apply (proj2 nan_is_low_risk). left. reflexivity.
Defined.

(** Series that end or start with a comma. *)
Lemma blank_token_spoils_series_witness :
  calculate_average_score (Some "80,90,") = Ok 0%float /\
  calculate_trend (Some ",60,90") = Ok stable.
Proof.
  destruct (blank_token_spoils_series (L := reference_lib) eq_refl)
    as (_ & Hend & Hstart).
  split.
  - apply (Hend "80,90").
  - apply (Hstart "60,90").
Defined.

(** The test table, whose identifiers are distinct, and the table in which
    S001 comes twice. *)
Lemma distinct_ids_keep_every_record_witness :
  keys (metrics (Sample.analyzed Sample.table)) = ["S001"; "S002"; "S003"] /\
  values (metrics (Sample.analyzed Sample.table)) =
    map Sample.metrics_of Sample.table /\
  ~ NoDup (map col_student_id Sample.table_with_duplicate).
Proof.
  pose proof (distinct_ids_keep_every_record
                (Sample.loaded Sample.table) (Sample.analyzed Sample.table)
                Sample.table (metrics (Sample.analyzed Sample.table))
                eq_refl eq_refl) as H.
  cbv zeta in H. destruct H as (_ & _ & _ & _ & H).
  destruct H as [Hkeys _].
  { repeat (constructor; [ simpl; intuition discriminate | ]). constructor. }
  split; [ exact Hkeys | ]. split; [ reflexivity | ].
  pose proof (distinct_ids_keep_every_record
                (Sample.loaded Sample.table_with_duplicate)
                {| data := Some Sample.table_with_duplicate;
                   metrics := [Sample.entry_of Sample.alice_again;
                               Sample.entry_of Sample.bob] |}
                Sample.table_with_duplicate _ eq_refl eq_refl) as H.
  cbv zeta in H. destruct H as (_ & _ & _ & Hiff & _).
  intros Hnd. apply Hiff in Hnd. discriminate Hnd.
Defined.

(** The mapping of the table in which S001 comes twice. *)
Lemma mapping_lookup_round_trip_witness :
  let d := [Sample.entry_of Sample.alice_again; Sample.entry_of Sample.bob] in
  NoDup (keys d) /\
  dict_get d (student_id (Sample.metrics_of Sample.alice_again)) =
    Some (Sample.metrics_of Sample.alice_again).
Proof.
  intros d.
  assert (H : analyze_all_students
                (Sample.loaded Sample.table_with_duplicate) =
              Ok (d, {| data := Some Sample.table_with_duplicate;
                        metrics := d |})) by reflexivity.
  destruct (mapping_lookup_round_trip _ _ _ H) as (Hnd & _ & _ & Hget).
  split; [ exact Hnd | ]. apply Hget. left. reflexivity.
Defined.

(** The statistics of the test table: two low-risk students and one at high
    risk, all three with a stable trend. *)
Lemma statistics_buckets_sum_to_total_witness :
  get_statistics (Sample.loaded Sample.table) =
    Ok (Sample.table_statistics, Sample.analyzed Sample.table) /\
  total_students Sample.table_statistics = 3 /\
  count_low (risk_distribution Sample.table_statistics) +
  count_medium (risk_distribution Sample.table_statistics) +
  count_high (risk_distribution Sample.table_statistics) = 3.
Proof.
  assert (H : get_statistics (Sample.loaded Sample.table) =
              Ok (Sample.table_statistics, Sample.analyzed Sample.table)) by
    reflexivity.
  split; [ exact H | ].
  destruct (statistics_buckets_sum_to_total _ _ _ H) as (Ht & Hr & _).
  split; [ exact Ht | ]. rewrite Hr. exact Ht.
Defined.

Lemma at_risk_lists_match_statistics_witness :
  exists at_low at_medium at_high,
    get_at_risk_students (Sample.loaded Sample.table) low =
      Ok (at_low, Sample.analyzed Sample.table) /\
    get_at_risk_students (Sample.loaded Sample.table) medium =
      Ok (at_medium, Sample.analyzed Sample.table) /\
    get_at_risk_students (Sample.loaded Sample.table) high =
      Ok (at_high, Sample.analyzed Sample.table) /\
    List.length at_low = 2 /\ List.length at_medium = 0 /\
    List.length at_high = 1.
Proof.
  assert (H : get_statistics (Sample.loaded Sample.table) =
              Ok (Sample.table_statistics, Sample.analyzed Sample.table)) by
    reflexivity.
  destruct (at_risk_lists_match_statistics _ _ _ H)
    as (at_low & at_medium & at_high & Hlists & Hnl & Hnm & Hnh & _).
  destruct (Hlists (Sample.loaded Sample.table) (or_introl eq_refl))
    as (Hl & Hm & Hh).
  exists at_low, at_medium, at_high. auto 10.
Defined.

(** The analyzer of the test table after the table with the repeated
    identifier has been loaded into it. *)
Lemma loading_keeps_former_results_witness :
  let reloaded :=
    snd (load_data_from_dataframe (Sample.analyzed Sample.table)
                                  Sample.table_with_duplicate) in
  data reloaded = Some Sample.table_with_duplicate /\
  get_at_risk_students reloaded high =
    Ok ([Sample.metrics_of Sample.bob], reloaded) /\
  generate_recommendations reloaded "S003" = [msg_performing_well].
Proof.
  intros reloaded.
  destruct (loading_keeps_former_results (Sample.analyzed Sample.table)
              Sample.table_with_duplicate)
    as (Hdata & _ & Hrisk & _ & Hrec); [ discriminate | ].
  split; [ exact Hdata | ]. split; [ apply Hrisk | ].
  fold reloaded in Hrec. rewrite Hrec. reflexivity.
Defined.

Lemma lazy_analysis_is_analysis_witness :
  get_statistics (Sample.loaded Sample.table) =
    get_statistics (Sample.analyzed Sample.table) /\
  get_at_risk_students (Sample.loaded Sample.table) high =
    Ok ([Sample.metrics_of Sample.bob], Sample.analyzed Sample.table).
Proof.
  assert (H : analyze_all_students (Sample.loaded Sample.table) =
              Ok (metrics (Sample.analyzed Sample.table),
                  Sample.analyzed Sample.table)) by reflexivity.
  destruct (lazy_analysis_is_analysis (Sample.loaded Sample.table) _ _
              eq_refl H)
    as (Hstats & _ & Hrisk).
  split; [ exact Hstats | ]. apply (proj2 (Hrisk high)).
Defined.

(** The table in which S001 comes twice has three records and two
    students. *)
Lemma total_counts_distinct_ids_witness :
  exists stats self',
    get_statistics (Sample.loaded Sample.table_with_duplicate) =
      Ok (stats, self') /\
    total_students stats = 2.
Proof.
  destruct (get_statistics (Sample.loaded Sample.table_with_duplicate))
    as [[stats self'] | e] eqn:H; [ | discriminate H ].
  exists stats, self'. split; [ reflexivity | ].
  apply (total_counts_distinct_ids
           (Sample.loaded Sample.table_with_duplicate) self'
           Sample.table_with_duplicate stats eq_refl eq_refl H).
Defined.

(** The recommendations for S002 of the test table. *)
Lemma each_recommendation_has_its_condition_witness :
  let recs := generate_recommendations (Sample.analyzed Sample.table) "S002" in
  In msg_tutoring recs /\ ~ In msg_declining recs /\
  last recs "" = msg_high_priority.
Proof.
  intros recs.
  assert (H : dict_get (metrics (Sample.analyzed Sample.table)) "S002" =
              Some (Sample.metrics_of Sample.bob)) by reflexivity.
  destruct (each_recommendation_has_its_condition _ _ _ H)
    as (Htut & _ & _ & Hdec & _ & _ & _ & Hlast).
  fold recs in Htut, Hdec, Hlast.
  split; [ apply Htut; reflexivity | ].
  split.
  { intros Hin. pose proof (proj1 Hdec Hin) as Ht.
    vm_compute in Ht. discriminate Ht. }
  apply Hlast. reflexivity.
Defined.

Lemma high_risk_students_get_priority_witness :
  let recs := generate_recommendations (Sample.analyzed Sample.table) "S002" in
  last recs "" = msg_high_priority /\ ~ In msg_performing_well recs.
Proof.
  intros recs.
  assert (H : analyze_all_students (Sample.loaded Sample.table) =
              Ok (metrics (Sample.analyzed Sample.table),
                  Sample.analyzed Sample.table)) by reflexivity.
  assert (Hhigh : get_at_risk_students (Sample.analyzed Sample.table) high =
                  Ok ([Sample.metrics_of Sample.bob],
                      Sample.analyzed Sample.table)) by reflexivity.
  destruct (high_risk_students_get_priority _ _ _ _ _ H Hhigh
              (Sample.metrics_of Sample.bob))
    as (_ & Hlast & _ & Hpos); [ left; reflexivity | ].
  split; [ exact Hlast | exact Hpos ].
Defined.

(** A series with an improving trend. *)
Lemma trend_needs_parsed_scores_witness :
  exists s scores,
    Some "60,90" = Some s /\ s <> "" /\ tokens_parse s scores /\
    2 <= List.length scores /\
    calculate_average_score (Some "60,90") = Ok (round2 (np_mean scores)).
Proof.
  apply (trend_needs_parsed_scores (Some "60,90") improving);
    [ reflexivity | discriminate ].
Defined.

(** The general recommendations for the empty table and for the test
    table. *)
Lemma empty_cohort_general_recommendations_witness :
  exists stats self',
    get_statistics (Sample.loaded []) = Ok (stats, self') /\
    total_students stats = 0 /\
    generate_general_recommendations ReferenceFormat.str_float stats =
      [msg_low_attendance; msg_low_score].
Proof.
  apply (empty_cohort_general_recommendations ReferenceFormat.str_float
           (Sample.loaded [])); reflexivity.
Defined.

Lemma generate_general_recommendations_spec_witness :
  generate_general_recommendations ReferenceFormat.str_float
    Sample.table_statistics =
    [msg_at_risk ReferenceFormat.str_float 33.33%float; msg_low_attendance] /\
  msg_at_risk ReferenceFormat.str_float 33.33%float =
    "33.33% of students are at risk. Consider implementing additional support programs.".
Proof.
  split; [ | reflexivity ].
  destruct (generate_general_recommendations_spec ReferenceFormat.str_float
              Sample.table_statistics) as (H & _).
  transitivity (general_issues ReferenceFormat.str_float
                               Sample.table_statistics).
  - apply H. vm_compute. discriminate.
  - vm_compute. reflexivity.
Defined.

(** The two roundings of the reference library differ on the at-risk
    percentage of one student in 4000, a number whose exact value lies
    just above 0.025: the builtin rounding gives 0.03, numpy's 0.02. *)
Example roundings_differ :
  builtin_round2 (float_of_nat 1 / float_of_nat 4000 * 100)%float =
    0.03%float /\
  round2 (float_of_nat 1 / float_of_nat 4000 * 100)%float = 0.02%float.
Proof. split; reflexivity. Qed.

End FurtherRuns.
